(** * Shallow embedding of the bacalhau docker executor (pkg/executor/docker)
      and of the submit-request check of the requester public API
      (pkg/requester/publicapi/utils.go). *)

From Stdlib Require Import ZArith String Ascii List Bool Lia Floats.
From Stdlib Require Import DecimalString DecimalPos.
Import ListNotations.

#[local] Set Warnings "-register-all,-inexact-float".

Local Open Scope string_scope.
Local Open Scope Z_scope.

(** ** Go errors

    An [error] value as produced by the code: [errors.New] / [fmt.Errorf]
    without a wrapped cause ([ENew]), a cause wrapped with a message by
    [errors.Wrap] or [fmt.Errorf("msg: %w", err)] ([EWrap]), and the
    error list built by [multierr.Combine] ([EMulti]). A Go [error] that
    may be nil is an [option error]. *)
Inductive error : Type :=
| ENew (msg : string)
| EWrap (msg : string) (cause : error)
| EMulti (errs : list error).

(** [err.Error()]: a wrapped error prints as ["msg: cause"], a multierr
    joins its errors with ["; "]. *)
Fixpoint Error (e : error) : string :=
  match e with
  | ENew m => m
  | EWrap m c => m ++ ": " ++ Error c
  | EMulti l =>
      (fix go (l : list error) : string :=
         match l with
         | [] => ""
         | [x] => Error x
         | x :: r => Error x ++ "; " ++ go r
         end) l
  end.

(** Fallible results of external calls: [(v, nil)] or [(_, err)]. *)
Inductive result (A : Type) : Type :=
| Ok (a : A)
| Err (e : error).
Arguments Ok {A} a.
Arguments Err {A} e.

Module Multierr.

(** The non-nil arguments, in order. *)
Definition nonNil (l : list (option error)) : list error :=
  flat_map (fun o => match o with Some e => [e] | None => [] end) l.

(** One level of flattening: a multierr contributes its own errors. *)
Definition flatten (e : error) : list error :=
  match e with EMulti l => l | _ => [e] end.

(** [multierr.Combine(errs...)] (go.uber.org/multierr, [fromSlice]):
    nil when every argument is nil, the single non-nil argument itself
    when there is exactly one, otherwise a multierr holding the non-nil
    arguments with nested multierrs flattened (when none is nested the
    flattening is the identity, which is the copy [fromSlice] makes). *)
Definition Combine (l : list (option error)) : option error :=
  match nonNil l with
  | [] => None
  | [e] => Some e
  | es => Some (EMulti (flat_map flatten es))
  end.

(** [multierr.Errors(err)]: the errors a (possibly combined) error holds. *)
Definition Errors (o : option error) : list error :=
  match o with None => [] | Some e => flatten e end.

End Multierr.

(** ** Strings *)

(** [strings.Contains(s, substr)]. *)
Fixpoint Contains (s sub : string) : bool :=
  prefix sub s ||
  match s with
  | EmptyString => false
  | String _ r => Contains r sub
  end.

(** [strings.Join(elems, sep)]. *)
Fixpoint Join (elems : list string) (sep : string) : string :=
  match elems with
  | [] => ""
  | [x] => x
  | x :: r => x ++ sep ++ Join r sep
  end.

(** [fmt.Sprint] of a Go [int]: its decimal rendering. *)
Definition Sprint_int (z : Z) : string :=
  match z with
  | Z0 => "0"
  | Zpos p => NilZero.string_of_uint (Pos.to_uint p)
  | Zneg p => "-" ++ NilZero.string_of_uint (Pos.to_uint p)
  end.

(** ** path/filepath on Unix *)
Module Filepath.

Definition slash : ascii := "/"%char.

(** The slash-separated elements of a path, empty ones included. *)
Fixpoint splitSlash (s : string) : list string :=
  match s with
  | EmptyString => [""]
  | String c r =>
      if Ascii.eqb c slash then "" :: splitSlash r
      else match splitSlash r with
           | [] => [String c ""]
           | x :: xs => String c x :: xs
           end
  end.

Definition rooted (p : string) : bool :=
  match p with String c _ => Ascii.eqb c slash | EmptyString => false end.

(** Lexical processing of the elements, innermost last on the stack:
    drop empty and ["."] elements, let [".."] remove the element before
    it, drop [".."] at the root of a rooted path and keep it otherwise. *)
Fixpoint cleanElems (isRooted : bool) (stack : list string)
         (elems : list string) : list string :=
  match elems with
  | [] => stack
  | e :: r =>
      if String.eqb e "" || String.eqb e "." then cleanElems isRooted stack r
      else if String.eqb e ".." then
        match stack with
        | top :: st' =>
            if String.eqb top ".." then cleanElems isRooted (e :: stack) r
            else cleanElems isRooted st' r
        | [] =>
            if isRooted then cleanElems isRooted [] r
            else cleanElems isRooted [e] r
        end
      else cleanElems isRooted (e :: stack) r
  end.

(** [filepath.Clean]: the shortest lexically equivalent path;
    ["."] for an empty result. *)
Definition Clean (p : string) : string :=
  let body := Join (rev (cleanElems (rooted p) [] (splitSlash p))) "/" in
  let out := (if rooted p then "/" else "") ++ body in
  if String.eqb out "" then "." else out.

(** [filepath.Join(a, b)]: the non-empty tail of the elements joined
    by a slash, then cleaned; [""] when both are empty. *)
Definition Join2 (a b : string) : string :=
  if negb (String.eqb a "") then Clean (a ++ "/" ++ b)
  else if negb (String.eqb b "") then Clean b
  else "".

End Filepath.

(** Go's ["%q"] verb on a plain string: the string in double quotes. *)
Definition dq : string := String "034"%char EmptyString.
Definition quoteQ (s : string) : string := dq ++ s ++ dq.

(** ** Integer conversions of the Go code on amd64 *)

(** [int64(u)] for a [uint64] [u]: two's-complement reinterpretation. *)
Definition int64_of_uint64 (u : Z) : Z :=
  if u <? 2 ^ 63 then u else u - 2 ^ 64.

(** The value of a finite float truncated toward zero; [None] on NaN and
    infinities. *)
Definition truncZ (f : float) : option Z :=
  match Prim2SF f with
  | S754_zero _ => Some 0
  | S754_finite s m e =>
      let a := if 0 <=? e then Z.pos m * 2 ^ e else Z.pos m / 2 ^ (- e) in
      Some (if s then - a else a)
  | _ => None
  end.

(** [int64(f)] for a non-constant [float64] [f]. The Go spec leaves the
    result implementation-dependent when the truncated value does not fit;
    on amd64 the conversion is CVTTSD2SQ, which then yields the
    "integer indefinite" value [-2^63] (also for NaN and infinities). *)
Definition int64_of_float64 (f : float) : Z :=
  match truncZ f with
  | Some z => if (- 2 ^ 63 <=? z) && (z <? 2 ^ 63) then z else - 2 ^ 63
  | None => - 2 ^ 63
  end.

(** ** Data model (pkg/model, pkg/storage, docker's mount and container) *)

Module model.

(** [model.StorageSpec], the fields this code reads or prints. *)
Record StorageSpec : Type := {
  StorageSource : string;
  Name : string;
  CID : string;
  Path : string
}.

Module cfg.
(** [model.ResourceUsageConfig]: the job's resource strings. *)
Record ResourceUsageConfig : Type := {
  CPU : string; Memory : string; Disk : string; GPU : string
}.
End cfg.

(** [model.ResourceUsageData]: CPU is a [float64] number of cores,
    Memory, Disk and GPU are [uint64]. *)
Record ResourceUsageData : Type := {
  CPU : float; Memory : Z; Disk : Z; GPU : Z
}.

Record JobSpecDocker : Type := {
  Image : string;
  Entrypoint : list string;
  EnvironmentVariables : list string;
  WorkingDirectory : string
}.

Record JobSpec : Type := {
  Docker : JobSpecDocker;
  Resources : cfg.ResourceUsageConfig;
  Contexts : list StorageSpec;
  Outputs : list StorageSpec
}.

Record JobMetadata : Type := { ID : string }.

(** [model.Job]. *)
Record JobT : Type := { Metadata : JobMetadata; Spec : JobSpec }.

(** [model.JobShard]: a job and a Go [int] index. *)
Record JobShard : Type := { Job : JobT; Index : Z }.

(** [model.RunCommandResult]. *)
Record RunCommandResult : Type := {
  STDOUT : string;
  STDERR : string;
  ExitCode : Z;
  RunnerError : option error
}.

(** [%+v] of a storage spec, abridged to the fields modelled here. *)
Definition fmtSpec (s : StorageSpec) : string :=
  "{StorageSource:" ++ StorageSource s ++ " Name:" ++ Name s ++
  " CID:" ++ CID s ++ " Path:" ++ Path s ++ "}".

End model.

Module storage.

(** The connector kinds of a prepared volume; only [bind] is consumed. *)
Inductive StorageVolumeConnectorType : Type :=
| StorageVolumeConnectorBind
| StorageVolumeConnectorOther (kind : string).

Definition fmtType (t : StorageVolumeConnectorType) : string :=
  match t with
  | StorageVolumeConnectorBind => "bind"
  | StorageVolumeConnectorOther k => k
  end.

Definition isBind (t : StorageVolumeConnectorType) : bool :=
  match t with StorageVolumeConnectorBind => true | _ => false end.

(** [storage.StorageVolume]: a resolved volume. *)
Record StorageVolume : Type := {
  Type_ : StorageVolumeConnectorType;  (* Go field [Type] *)
  Source : string;
  Target : string
}.

End storage.

Module mount.
Definition TypeBind : string := "bind".
(** [mount.Mount]. *)
Record Mount : Type := {
  Type_ : string;  (* Go field [Type] *)
  ReadOnly : bool;
  Source : string;
  Target : string
}.
End mount.

Module container.

(** [container.Config], the fields the executor sets. *)
Record Config : Type := {
  Image : string;
  Tty : bool;
  Env : list string;
  Entrypoint : list string;
  Labels : list (string * string);
  WorkingDir : string
}.

Record DeviceRequest : Type := {
  DeviceIDs : list string;
  Capabilities : list (list string)
}.

(** [container.Resources]. *)
Record ContainerResources : Type := {
  Memory : Z;
  NanoCPUs : Z;
  DeviceRequests : list DeviceRequest
}.

Record HostConfig : Type := {
  Mounts : list mount.Mount;
  Resources : ContainerResources
}.

End container.

(** ** The docker executor (pkg/executor/docker/executor.go) *)
Module docker.

Definition NanoCPUCoefficient : Z := 1000000000.
(** The untyped constant converted to [float64] in [CPU * NanoCPUCoefficient]. *)
Definition NanoCPUCoefficient_f64 : float := 1e9%float.

Definition labelExecutorName : string := "bacalhau-executor".
Definition labelJobName : string := "bacalhau-jobID".

(** [docker.Executor]; the storage provider and the docker client are the
    collaborators of [Env] below. *)
Record Executor : Type := { ID : string }.

(** Contexts: the caller's, [context.Background()] and a derived context
    with a timeout in seconds. *)
Inductive Ctx : Type :=
| CallerCtx
| Background
| WithTimeout (parent : Ctx) (seconds : Z).

Inductive LogLevel : Type := DebugLevel | ErrorLevel.

(** The calls RunShard makes to the file system and the docker daemon,
    and the log line of the cleanup, in the order they happen. Tracing
    and the trace/debug log lines of the body are not recorded. *)
Inductive event : Type :=
| EvGetShardStorageSpec
| EvPrepareStorage (specs : list model.StorageSpec)
| EvMkdir (path : string) (perm : Z)
| EvPullImage (image : string)
| EvSetupNetwork
| EvContainerCreate (cfg : container.Config) (hc : container.HostConfig)
                    (name : string)
| EvContainerStart (id : string)
| EvFollowLogs (id : string)
| EvContainerWait (id : string)
| EvRemoveObjectsWithLabel (ctx : Ctx) (key value : string)
| EvLog (lvl : LogLevel) (msg : string).

(** [container.ContainerWaitOKBody]: the status code and the optional
    embedded error message. *)
Record WaitStatus : Type := {
  StatusCode : Z;
  StatusError : option string
}.

(** The branch the [select] over [errCh] and [statusCh] takes. *)
Inductive WaitOutcome : Type :=
| FromErrCh (e : error)
| FromStatusCh (st : WaitStatus).

(** What the collaborators answer during one invocation: the storage
    provider, the OS, configuration, the docker client and the helpers of
    the docker package and of the other files of this package. *)
Record Env : Type := {
  GetShardStorageSpec : model.JobShard -> result (list model.StorageSpec);
  (** the map returned by [ParallelPrepareStorage], in the order Go's
      [range] visits it *)
  ParallelPrepareStorage :
    list model.StorageSpec ->
    result (list (model.StorageSpec * storage.StorageVolume));
  (** failures of [os.Mkdir] other than an existing path *)
  MkdirFailure : string -> option error;
  SKIP_IMAGE_PULL : string;
  PullImage : string -> option error;
  JSONMarshalWithMax : model.JobSpec -> result string;
  ParseResourceUsageConfig :
    model.cfg.ResourceUsageConfig -> model.ResourceUsageData;
  setupNetworkForJob :
    container.Config -> container.HostConfig ->
    result (container.Config * container.HostConfig);
  ContainerCreate :
    container.Config -> container.HostConfig -> string -> result string;
  ContainerStart : string -> option error;
  FollowLogs : string -> string * string * option error;
  ContainerWait : string -> WaitOutcome;
  ShouldKeepStack : bool;
  RemoveObjectsWithLabel : Ctx -> string -> string -> option error
}.

(** The host directories that exist, and the calls made so far. *)
Record St : Type := { fs : list string; trace : list event }.

(** State and early return: [Err e] is [return executor.FailResult(e)]. *)
Definition M (A : Type) : Type := St -> result A * St.

Definition ret {A} (a : A) : M A := fun s => (Ok a, s).
Definition bind {A B} (m : M A) (k : A -> M B) : M B :=
  fun s => match m s with
           | (Ok a, s') => k a s'
           | (Err e, s') => (Err e, s')
           end.
Definition fail {A} (e : error) : M A := fun s => (Err e, s).
Definition liftR {A} (r : result A) : M A := fun s => (r, s).
Definition emit (ev : event) : M unit :=
  fun s => (Ok tt, {| fs := fs s; trace := (trace s ++ [ev])%list |}).

Notation "x <- m ;; k" := (bind m (fun x => k))
  (at level 61, m at next level, right associativity).
Notation "' p <- m ;; k" := (bind m (fun x => match x with p => k end))
  (at level 61, p pattern, m at next level, right associativity).
Notation "m ;; k" := (bind m (fun _ => k))
  (at level 61, right associativity).

(** Modelled from the spec: [util.OS_ALL_R], [util.OS_ALL_X] and
    [util.OS_USER_W] of pkg/util, not in src; the spec describes the mode
    they make as owner read/write/execute and world read/execute. *)
Definition OS_ALL_R : Z := 292.   (* 0o444 *)
Definition OS_ALL_X : Z := 73.    (* 0o111 *)
Definition OS_USER_W : Z := 128.  (* 0o200 *)
Definition outputDirPerm : Z := Z.lor (Z.lor OS_ALL_R OS_ALL_X) OS_USER_W.

(** [model.RunCommandResult] as the caller receives it from [RunShard]:
    the result of [FailResult(err)] or of [WriteJobResults]. *)
Inductive Outcome : Type :=
| Failed (e : error)
| Ran (r : model.RunCommandResult).

(** Modelled from the spec: [executor.WriteJobResults] (pkg/executor, not
    in src) persists the captured output and reports the exit code and the
    combined error. *)
Definition WriteJobResults (resultsDir stdout stderr : string) (exitCode : Z)
           (err : option error) : model.RunCommandResult :=
  {| model.STDOUT := stdout; model.STDERR := stderr;
     model.ExitCode := exitCode; model.RunnerError := err |}.

Section Executor.

(** [shard.ID()] of pkg/model, not in src: the shard's identity string. *)
Variable JobShard_ID : model.JobShard -> string.
Variable env : Env.

Definition dockerObjectName (e : Executor) (shard : model.JobShard)
           (parts : list string) : string :=
  let strs := ["bacalhau"; ID e; model.ID (model.Metadata (model.Job shard));
               Sprint_int (model.Index shard)] in
  Join (strs ++ parts)%list "-".

Definition jobContainerName (e : Executor) (shard : model.JobShard) : string :=
  dockerObjectName e shard ["executor"].

Definition labelJobValue (e : Executor) (shard : model.JobShard) : string :=
  ID e ++ JobShard_ID shard.

(** The Go map literal, as its list of entries. *)
Definition jobContainerLabels (e : Executor) (shard : model.JobShard)
  : list (string * string) :=
  [(labelExecutorName, ID e); (labelJobName, labelJobValue e shard)].

(** [os.Mkdir]: fails on an existing path and on the other OS failures. *)
Definition os_Mkdir (p : string) (perm : Z) : M unit :=
  fun s =>
    let s1 := {| fs := fs s; trace := (trace s ++ [EvMkdir p perm])%list |} in
    if existsb (String.eqb p) (fs s) then
      (Err (EWrap ("mkdir " ++ p) (ENew "file exists")), s1)
    else match MkdirFailure env p with
         | Some err => (Err err, s1)
         | None => (Ok tt, {| fs := p :: fs s; trace := trace s1 |})
         end.

(** Lines 132-146: the loop over the prepared input volumes. *)
Fixpoint inputMounts (mounts : list mount.Mount)
         (inputVolumes : list (model.StorageSpec * storage.StorageVolume))
  : result (list mount.Mount) :=
  match inputVolumes with
  | [] => Ok mounts
  | (spec, volumeMount) :: rest =>
      if storage.isBind (storage.Type_ volumeMount) then
        inputMounts
          (mounts ++ [{| mount.Type_ := mount.TypeBind;
                         mount.ReadOnly := true;
                         mount.Source := storage.Source volumeMount;
                         mount.Target := storage.Target volumeMount |}])%list
          rest
      else Err (ENew ("unknown storage volume type: " ++
                      storage.fmtType (storage.Type_ volumeMount)))
  end.

(** Lines 152-184: the loop over the job's output specs. *)
Fixpoint outputMounts (jobResultsDir : string) (mounts : list mount.Mount)
         (outputs : list model.StorageSpec) : M (list mount.Mount) :=
  match outputs with
  | [] => ret mounts
  | output :: rest =>
      if String.eqb (model.Name output) "" then
        fail (ENew ("output volume has no name: " ++ model.fmtSpec output))
      else if String.eqb (model.Path output) "" then
        fail (ENew ("output volume has no path: " ++ model.fmtSpec output))
      else
        let srcd := Filepath.Join2 jobResultsDir (model.Name output) in
        os_Mkdir srcd outputDirPerm ;;
        outputMounts jobResultsDir
          (mounts ++ [{| mount.Type_ := mount.TypeBind;
                         mount.ReadOnly := false;
                         mount.Source := srcd;
                         mount.Target := model.Path output |}])%list
          rest
  end.

(** Lines 130-184: the mounts given to the container. *)
Definition buildMounts (jobResultsDir : string)
           (inputVolumes : list (model.StorageSpec * storage.StorageVolume))
           (outputs : list model.StorageSpec) : M (list mount.Mount) :=
  mounts <- liftR (inputMounts [] inputVolumes) ;;
  outputMounts jobResultsDir mounts outputs.

(** Lines 219-240: the resource limits and device requests of the host
    configuration. *)
Definition hostConfigOf (mounts : list mount.Mount)
           (resourceRequirements : model.ResourceUsageData)
  : container.HostConfig :=
  let deviceRequests :=
    if 0 <? model.GPU resourceRequirements then
      [{| container.DeviceIDs := ["0"];
          container.Capabilities := [["gpu"]] |}]
    else [] in
  {| container.Mounts := mounts;
     container.Resources :=
       {| container.Memory :=
            int64_of_uint64 (model.Memory resourceRequirements);
          container.NanoCPUs :=
            int64_of_float64
              (PrimFloat.mul (model.CPU resourceRequirements)
                             NanoCPUCoefficient_f64);
          container.DeviceRequests := deviceRequests |} |}.

(** Lines 269-272: the message a start failure is wrapped with. *)
Definition startErrorMsg (containerStartError : error) : string :=
  if Contains (Error containerStartError) "executable file not found"
  then "Executable file not found"
  else "failed to start container".

(** Lines 282-297: [containerExitStatusCode] and [containerError] after
    the [select]. *)
Definition awaitResult (w : WaitOutcome) : Z * option error :=
  match w with
  | FromErrCh err => (0, Some err)
  | FromStatusCh exitStatus =>
      (StatusCode exitStatus,
       match StatusError exitStatus with
       | Some msg => Some (ENew msg)
       | None => None
       end)
  end.

Definition pullImageMsg (image : string) : string :=
  "Could not pull image " ++ quoteQ image ++
  " - could be due to repo/image not existing,
 or registry needing authorization".

(** Lines 116-305: the body of [RunShard], before the deferred cleanup. *)
Definition RunShardBody (e : Executor) (shard : model.JobShard)
           (jobResultsDir : string) : M model.RunCommandResult :=
  let spec := model.Spec (model.Job shard) in
  emit EvGetShardStorageSpec ;;
  shardStorageSpec <- liftR (GetShardStorageSpec env shard) ;;
  let inputStorageSpecs := (model.Contexts spec ++ shardStorageSpec)%list in
  emit (EvPrepareStorage inputStorageSpecs) ;;
  inputVolumes <- liftR (ParallelPrepareStorage env inputStorageSpecs) ;;
  mounts <- buildMounts jobResultsDir inputVolumes (model.Outputs spec) ;;
  let image := model.Image (model.Docker spec) in
  (if String.eqb (SKIP_IMAGE_PULL env) "" then
     emit (EvPullImage image) ;;
     match PullImage env image with
     | Some err => fail (EWrap (pullImageMsg image) err)
     | None => ret tt
     end
   else ret tt) ;;
  jsonJobSpec <- liftR (JSONMarshalWithMax env spec) ;;
  let useEnv := app (model.EnvironmentVariables (model.Docker spec))
                    ["BACALHAU_JOB_SPEC=" ++ jsonJobSpec] in
  let containerConfig :=
    {| container.Image := image;
       container.Tty := false;
       container.Env := useEnv;
       container.Entrypoint := model.Entrypoint (model.Docker spec);
       container.Labels := jobContainerLabels e shard;
       container.WorkingDir := model.WorkingDirectory (model.Docker spec) |} in
  let resourceRequirements :=
    ParseResourceUsageConfig env (model.Resources spec) in
  let hostConfig := hostConfigOf mounts resourceRequirements in
  emit EvSetupNetwork ;;
  '(containerConfig, hostConfig) <-
    liftR (setupNetworkForJob env containerConfig hostConfig) ;;
  let name := jobContainerName e shard in
  emit (EvContainerCreate containerConfig hostConfig name) ;;
  jobContainer <-
    liftR (match ContainerCreate env containerConfig hostConfig name with
           | Ok id => Ok id
           | Err err => Err (EWrap "failed to create container" err)
           end) ;;
  emit (EvContainerStart jobContainer) ;;
  (match ContainerStart env jobContainer with
   | Some containerStartError =>
       fail (EWrap (startErrorMsg containerStartError) containerStartError)
   | None => ret tt
   end) ;;
  emit (EvFollowLogs jobContainer) ;;
  let '(stdoutPipe, stderrPipe, logsErr) := FollowLogs env jobContainer in
  emit (EvContainerWait jobContainer) ;;
  let '(containerExitStatusCode, containerError) :=
    awaitResult (ContainerWait env jobContainer) in
  ret (WriteJobResults jobResultsDir stdoutPipe stderrPipe
         containerExitStatusCode
         (Multierr.Combine [containerError; logsErr])).

(** Lines 312-323: [cleanupJob], on a separate context with a one-minute
    timeout; the outcome only chooses the log level. *)
Definition cleanupJob (e : Executor) (shard : model.JobShard) : M unit :=
  if ShouldKeepStack env then ret tt
  else
    let separateCtx := WithTimeout Background 60 in
    let err := RemoveObjectsWithLabel env separateCtx labelJobName
                                      (labelJobValue e shard) in
    emit (EvRemoveObjectsWithLabel separateCtx labelJobName
                                   (labelJobValue e shard)) ;;
    emit (EvLog (match err with None => DebugLevel | Some _ => ErrorLevel end)
                "Cleaned up job Docker resources").

(** [RunShard]: the body from a fresh trace over the host directories
    [fs0], then the deferred [cleanupJob], whatever the body returned. *)
Definition RunShard (e : Executor) (shard : model.JobShard)
           (jobResultsDir : string) (fs0 : list string) : Outcome * St :=
  let '(r, s) := RunShardBody e shard jobResultsDir
                              {| fs := fs0; trace := [] |} in
  let '(_, s') := cleanupJob e shard s in
  (match r with Ok res => Ran res | Err err => Failed err end, s').

(** Lines 308-310: [CancelShard] removes the shard's objects by their job
    label on the caller's context and returns the removal error. *)
Definition CancelShard (ctx : Ctx) (e : Executor) (shard : model.JobShard)
  : M (option error) :=
  emit (EvRemoveObjectsWithLabel ctx labelJobName (labelJobValue e shard)) ;;
  ret (RemoveObjectsWithLabel env ctx labelJobName (labelJobValue e shard)).

(** Lines 325-337: [cleanupAll], the callback [NewExecutor] registers:
    the executor's objects by their executor label, on a background
    context; the outcome only chooses the log level. *)
Definition cleanupAll (e : Executor) : M unit :=
  if ShouldKeepStack env then ret tt
  else
    let safeCtx := Background in
    let err := RemoveObjectsWithLabel env safeCtx labelExecutorName (ID e) in
    emit (EvRemoveObjectsWithLabel safeCtx labelExecutorName (ID e)) ;;
    emit (EvLog (match err with None => DebugLevel | Some _ => ErrorLevel end)
                "Cleaned up all Docker resources").

End Executor.

End docker.

(** ** The submit-request check (pkg/requester/publicapi/utils.go) *)
Module publicapi.

(** [model.JobCreatePayload]. *)
Record jobCreatePayload : Type := {
  ClientID : string;
  Job : model.JobT;
  Context : string
}.

(** [submitRequest]. *)
Record submitRequest : Type := {
  JobCreatePayload : jobCreatePayload;
  ClientSignature : string;
  ClientPublicKey : string
}.

Section Verify.

(** [system.PublicKeyMatchesID], [model.JSONMarshalWithMax] and
    [system.Verify], external to this file. *)
Variable PublicKeyMatchesID : string -> string -> result bool.
Variable JSONMarshalWithMax : jobCreatePayload -> result string.
Variable Verify : string -> string -> string -> option error.

Definition verifySubmitRequest (req : submitRequest) : option error :=
  if String.eqb (ClientID (JobCreatePayload req)) "" then
    Some (ENew "job create payload must contain a client ID")
  else if String.eqb (ClientSignature req) "" then
    Some (ENew "client's signature is required")
  else if String.eqb (ClientPublicKey req) "" then
    Some (ENew "client's public key is required")
  else
    match PublicKeyMatchesID (ClientPublicKey req)
                             (ClientID (JobCreatePayload req)) with
    | Err err => Some (EWrap "error verifying client ID" err)
    | Ok false => Some (ENew "client's public key does not match client ID")
    | Ok true =>
        match JSONMarshalWithMax (JobCreatePayload req) with
        | Err err => Some (EWrap "error marshaling job data" err)
        | Ok jsonData =>
            match Verify jsonData (ClientSignature req) (ClientPublicKey req) with
            | Some err => Some (EWrap "client's signature is invalid" err)
            | None => None
            end
        end
    end.

End Verify.

End publicapi.

(** ** bufio.Scanner with the default split function (Go standard library)

    The scanner [LogStream] reads its input with. Bytes are [ascii]
    characters. The reader is a byte source: each [Read] returns as many
    of the remaining bytes as fit in the buffer space offered, with a nil
    error, and once no bytes remain, zero bytes and its final error
    ([io.EOF], or the error the stream failed with). *)
Module bufio.

#[local] Set Warnings "-abstract-large-number".

Definition MaxScanTokenSize : nat := 65536.  (* 64 * 1024 *)
Definition startBufSize : nat := 4096.

(** [io.EOF], [bufio.ErrTooLong], [bufio.ErrAdvanceTooFar],
    [io.ErrNoProgress], and an error of the reader. *)
Inductive scanErr : Type :=
| ErrEOF
| ErrTooLong
| ErrAdvanceTooFar
| ErrNoProgress
| ErrRead (e : error).

Definition nl : ascii := "010"%char.
Definition cr : ascii := "013"%char.

(** [bytes.IndexByte]. *)
Fixpoint IndexByte (b : list ascii) (c : ascii) : option nat :=
  match b with
  | [] => None
  | x :: r => if Ascii.eqb x c then Some 0%nat else option_map S (IndexByte r c)
  end.

(** [dropCR]: a final carriage return is removed. *)
Definition dropCR (data : list ascii) : list ascii :=
  if (0 <? length data)%nat && Ascii.eqb (last data "000"%char) cr
  then removelast data else data.

(** [bufio.ScanLines]: the advance and the token ([None] is a nil token). *)
Definition ScanLines (data : list ascii) (atEOF : bool) : nat * option (list ascii) :=
  if atEOF && (length data =? 0)%nat then (0%nat, None)
  else match IndexByte data nl with
       | Some i => (S i, Some (dropCR (firstn i data)))
       | None => if atEOF then (length data, Some (dropCR data)) else (0%nat, None)
       end.

(** The scanner: [buf] is [len(s.buf)], [window] the bytes
    [s.buf[s.start:s.end]], [err] the recorded error; [input] and [final]
    are the reader's remaining bytes and its final error ([None] for
    [io.EOF]). [s.done] is only set by [ErrFinalToken], which [ScanLines]
    never returns, and the empty-token counter stays 0 because [ScanLines]
    always advances when it returns a token; neither is represented. *)
Record Scanner : Type := {
  buf : nat;
  start : nat;
  window : list ascii;
  err : option scanErr;
  input : list ascii;
  final : option error
}.

Definition end_ (s : Scanner) : nat := (start s + length (window s))%nat.

Definition NewScanner (r : list ascii) (final : option error) : Scanner :=
  {| buf := 0; start := 0; window := []; err := None; input := r; final := final |}.

(** [s.setErr]: the first error other than [io.EOF] is kept. *)
Definition setErr (s : Scanner) (e : scanErr) : Scanner :=
  match err s with
  | None | Some ErrEOF =>
      {| buf := buf s; start := start s; window := window s; err := Some e;
         input := input s; final := final s |}
  | Some _ => s
  end.

(** [s.advance(n)] for a non-negative [n] within the window. *)
Definition advance (s : Scanner) (n : nat) : Scanner :=
  {| buf := buf s; start := (start s + n)%nat; window := skipn n (window s);
     err := err s; input := input s; final := final s |}.

(** The read loop of [Scan]: one [Read] into [s.buf[s.end:len(s.buf)]].
    A read of zero bytes with no error is repeated unchanged, so after
    [maxConsecutiveEmptyReads] it records [io.ErrNoProgress]. *)
Definition read (s : Scanner) : Scanner :=
  let m := (buf s - end_ s)%nat in
  match input s with
  | [] => setErr s (match final s with None => ErrEOF | Some e => ErrRead e end)
  | _ =>
      let n := Nat.min m (length (input s)) in
      if (n =? 0)%nat then setErr s ErrNoProgress
      else {| buf := buf s; start := start s;
              window := (window s ++ firstn n (input s))%list;
              err := err s; input := skipn n (input s); final := final s |}
  end.

(** One pass of the loop of [Scan]: a token, a stop ([Scan] returns
    false), or another pass. *)
Inductive iter : Type :=
| Token (tok : list ascii) (s : Scanner)
| Stop (s : Scanner)
| Again (s : Scanner).

(** The part of the pass after the split function gave no token: stop on a
    recorded error, else shift the window to the front, grow a full buffer
    (or fail with [ErrTooLong] once it has [MaxScanTokenSize] bytes; the
    overflow guard on [len(s.buf)] never fires below that size) and read. *)
Definition refill (s : Scanner) : iter :=
  match err s with
  | Some _ =>
      Stop {| buf := buf s; start := 0; window := []; err := err s;
              input := input s; final := final s |}
  | None =>
      let s :=
        if (0 <? start s)%nat && ((end_ s =? buf s)%nat || (buf s / 2 <? start s)%nat)
        then {| buf := buf s; start := 0; window := window s; err := err s;
                input := input s; final := final s |}
        else s in
      if (end_ s =? buf s)%nat then
        if (MaxScanTokenSize <=? buf s)%nat then Stop (setErr s ErrTooLong)
        else
          let newSize := (buf s * 2)%nat in
          let newSize := if (newSize =? 0)%nat then startBufSize else newSize in
          let newSize := Nat.min newSize MaxScanTokenSize in
          Again (read {| buf := newSize; start := 0; window := window s;
                         err := err s; input := input s; final := final s |})
      else Again (read s)
  end.

Definition scanIter (s : Scanner) : iter :=
  let atEOF := match err s with Some _ => true | None => false end in
  if (0 <? length (window s))%nat || atEOF then
    let '(adv, token) := ScanLines (window s) atEOF in
    if (length (window s) <? adv)%nat then Stop (setErr s ErrAdvanceTooFar)
    else
      let s1 := advance s adv in
      match token with
      | Some tok => Token tok s1
      | None => refill s1
      end
  else refill s.

(** [s.Scan()], run for at most [fuel] passes ([None] past them): the token
    when it returns true. *)
Fixpoint Scan (fuel : nat) (s : Scanner) : option (option (list ascii) * Scanner) :=
  match fuel with
  | O => None
  | S f =>
      match scanIter s with
      | Token tok s' => Some (Some tok, s')
      | Stop s' => Some (None, s')
      | Again s' => Scan f s'
      end
  end.

(** Each pass that does not return reads at least one byte or records the
    reader's final error, so [Scan] needs at most this many passes. *)
Definition scanFuel (s : Scanner) : nat := S (S (S (length (input s)))).

(** [s.Err()]: [io.EOF] is not reported. *)
Definition Err (s : Scanner) : option scanErr :=
  match err s with Some ErrEOF => None | e => e end.

End bufio.

(** ** Logging helpers (pkg/logger/logger.go) *)
Module logger.

(** [strings.HasPrefix] / [strings.TrimPrefix]. *)
Definition HasPrefix (s pfx : string) : bool := String.prefix pfx s.

Definition TrimPrefix (s pfx : string) : string :=
  if HasPrefix s pfx then substring (String.length pfx) (String.length s) s
  else s.

(** [strconv.Itoa]: the decimal rendering, as [fmt.Sprint]. *)
Definition Itoa (z : Z) : string := Sprint_int z.

(** Lines 213-218: the caller formatter built from a path prefix. *)
Definition marshalCaller (prefix : string) (file : string) (line : Z) : string :=
  let file := TrimPrefix file (prefix ++ "/") in
  file ++ ":" ++ Itoa line.

Definition nodeIDFieldName : string := "NodeID".

(** A zerolog logger, as the context fields it adds to each entry. *)
Definition Logger : Type := list (string * string).

Section NodeID.
(** [model.ShortIDLength], the length node IDs are cut to. *)
Variable ShortIDLength : nat.

(** Lines 141-146: [loggerWithNodeID] adds the NodeID field to the global
    logger [log]; an ID longer than 8 bytes is sliced to
    [nodeID[:model.ShortIDLength]], which panics ([None]) when the slice
    bound exceeds the ID's length. *)
Definition loggerWithNodeID (log : Logger) (nodeID : string) : option Logger :=
  let nodeID' :=
    if (8 <? String.length nodeID)%nat then
      if (ShortIDLength <=? String.length nodeID)%nat
      then Some (substring 0 ShortIDLength nodeID)
      else None
    else Some nodeID in
  match nodeID' with
  | Some nodeID => Some (log ++ [(nodeIDFieldName, nodeID)])%list
  | None => None
  end.

End NodeID.

(** A log entry: its level, the error attached with [.Err], its message. *)
Definition entry : Type := (docker.LogLevel * option bufio.scanErr * string)%type.

(** Lines 182-190: [LogStream]: one debug entry per token [s.Scan()]
    returns, then an error entry when the scanner reports an error; run
    for at most [fuel] calls of [Scan]. *)
Fixpoint logLines (fuel : nat) (s : bufio.Scanner) : option (list entry) :=
  match fuel with
  | O => None
  | S f =>
      match bufio.Scan (bufio.scanFuel s) s with
      | None => None
      | Some (Some tok, s') =>
          option_map (cons (docker.DebugLevel, None, string_of_list_ascii tok))
                     (logLines f s')
      | Some (None, s') =>
          Some (match bufio.Err s' with
                | None => []
                | Some e => [(docker.ErrorLevel, Some e, "error consuming log")]
                end)
      end
  end.

(** Every call of [Scan] that returns true consumes at least one byte. *)
Definition LogStream (r : list ascii) (final : option error) : option (list entry) :=
  logLines (S (S (length r))) (bufio.NewScanner r final).

End logger.

(** * Sample inputs *)
Module Samples.
Import docker.

(** A shard identity string: the job ID and the index. *)
Definition sampleShardID (shard : model.JobShard) : string :=
  model.ID (model.Metadata (model.Job shard)) ++ ":" ++
  Sprint_int (model.Index shard).

Definition sampleExecutor : Executor := {| ID := "node1" |}.

Definition inputSpec : model.StorageSpec :=
  {| model.StorageSource := "ipfs"; model.Name := "data";
     model.CID := "Qm1"; model.Path := "/inputs" |}.

Definition outputSpec : model.StorageSpec :=
  {| model.StorageSource := "ipfs"; model.Name := "outputs";
     model.CID := ""; model.Path := "/outputs" |}.

(** An output spec with no path. *)
Definition badOutput : model.StorageSpec :=
  {| model.StorageSource := "ipfs"; model.Name := "outputs";
     model.CID := ""; model.Path := "" |}.

(** An output whose name climbs out of the results directory. *)
Definition escapeOutput : model.StorageSpec :=
  {| model.StorageSource := "ipfs"; model.Name := "../escape";
     model.CID := ""; model.Path := "/out" |}.

(** A volume of a connector kind other than bind. *)
Definition otherVolume : storage.StorageVolume :=
  {| storage.Type_ := storage.StorageVolumeConnectorOther "copy";
     storage.Source := "/tmp/x"; storage.Target := "/inputs" |}.

Definition sampleJob (outputs : list model.StorageSpec) : model.JobT :=
  {| model.Metadata := {| model.ID := "job1" |};
     model.Spec :=
       {| model.Docker :=
            {| model.Image := "ubuntu"; model.Entrypoint := ["echo"; "hi"];
               model.EnvironmentVariables := []; model.WorkingDirectory := "" |};
          model.Resources :=
            {| model.cfg.CPU := "1"; model.cfg.Memory := "1Gb";
               model.cfg.Disk := ""; model.cfg.GPU := "" |};
          model.Contexts := [inputSpec];
          model.Outputs := outputs |} |}.

Definition sampleShard (outputs : list model.StorageSpec) : model.JobShard :=
  {| model.Job := sampleJob outputs; model.Index := 0 |}.

(** Every storage spec resolves to a bind volume at its path. *)
Definition bindVolume (sp : model.StorageSpec) : storage.StorageVolume :=
  {| storage.Type_ := storage.StorageVolumeConnectorBind;
     storage.Source := "/ipfs/" ++ model.CID sp;
     storage.Target := model.Path sp |}.

(** A Docker daemon that creates container "c1", answers [start] with
    [start] and [wait] with [wait]. *)
Definition sampleEnv (start : option error) (wait : WaitOutcome) : Env :=
  {| GetShardStorageSpec := fun _ => Ok [];
     ParallelPrepareStorage :=
       fun specs => Ok (map (fun sp => (sp, bindVolume sp)) specs);
     MkdirFailure := fun _ => None;
     SKIP_IMAGE_PULL := "";
     PullImage := fun _ => None;
     JSONMarshalWithMax := fun _ => Ok "{}";
     ParseResourceUsageConfig :=
       fun _ => {| model.CPU := 1%float; model.Memory := 1073741824;
                   model.Disk := 0; model.GPU := 0 |};
     setupNetworkForJob := fun c h => Ok (c, h);
     ContainerCreate := fun _ _ _ => Ok "c1";
     ContainerStart := fun _ => start;
     FollowLogs := fun _ => ("hi", "", None);
     ContainerWait := fun _ => wait;
     ShouldKeepStack := false;
     RemoveObjectsWithLabel := fun _ _ _ => None |}.

(** The same daemon, with storage preparation returning a copy volume. *)
Definition otherEnv : Env :=
  let b := sampleEnv None (FromStatusCh {| StatusCode := 0; StatusError := None |}) in
  {| GetShardStorageSpec := GetShardStorageSpec b;
     ParallelPrepareStorage := fun specs =>
       Ok (map (fun sp => (sp, otherVolume)) specs);
     MkdirFailure := MkdirFailure b;
     SKIP_IMAGE_PULL := SKIP_IMAGE_PULL b;
     PullImage := PullImage b;
     JSONMarshalWithMax := JSONMarshalWithMax b;
     ParseResourceUsageConfig := ParseResourceUsageConfig b;
     setupNetworkForJob := setupNetworkForJob b;
     ContainerCreate := ContainerCreate b;
     ContainerStart := ContainerStart b;
     FollowLogs := FollowLogs b;
     ContainerWait := ContainerWait b;
     ShouldKeepStack := ShouldKeepStack b;
     RemoveObjectsWithLabel := RemoveObjectsWithLabel b |}.

(** Two executors and jobs whose IDs contain dashes. *)
Definition executorAB : Executor := {| ID := "a-b" |}.
Definition executorA : Executor := {| ID := "a" |}.
Definition jobShardNamed (jobID : string) : model.JobShard :=
  {| model.Job := {| model.Metadata := {| model.ID := jobID |};
                     model.Spec := model.Spec (sampleJob []) |};
     model.Index := 0 |}.

(** A start failure for a missing entrypoint binary. *)
Definition notFound : option error :=
  Some (ENew "exec: echo: executable file not found in $PATH").

Definition exited (code : Z) : WaitOutcome :=
  FromStatusCh {| StatusCode := code; StatusError := None |}.

(** The sample daemon, with an image pull that fails. *)
Definition pullFailEnv : Env :=
  let b := sampleEnv None (exited 0) in
  {| GetShardStorageSpec := GetShardStorageSpec b;
     ParallelPrepareStorage := ParallelPrepareStorage b;
     MkdirFailure := MkdirFailure b;
     SKIP_IMAGE_PULL := SKIP_IMAGE_PULL b;
     PullImage := fun _ => Some (ENew "manifest unknown");
     JSONMarshalWithMax := JSONMarshalWithMax b;
     ParseResourceUsageConfig := ParseResourceUsageConfig b;
     setupNetworkForJob := setupNetworkForJob b;
     ContainerCreate := ContainerCreate b;
     ContainerStart := ContainerStart b;
     FollowLogs := FollowLogs b;
     ContainerWait := ContainerWait b;
     ShouldKeepStack := ShouldKeepStack b;
     RemoveObjectsWithLabel := RemoveObjectsWithLabel b |}.

(** The mounts and the host state the sample shard with one output
    reaches once its mounts are built under "/results". *)
Definition sampleMounts : list mount.Mount :=
  [{| mount.Type_ := "bind"; mount.ReadOnly := true;
      mount.Source := "/ipfs/Qm1"; mount.Target := "/inputs" |};
   {| mount.Type_ := "bind"; mount.ReadOnly := false;
      mount.Source := "/results/outputs"; mount.Target := "/outputs" |}].

Definition sampleMountsState : St :=
  {| fs := ["/results/outputs"];
     trace := [EvGetShardStorageSpec; EvPrepareStorage [inputSpec];
               EvMkdir "/results/outputs" outputDirPerm] |}.

(** A second output spelled "./outputs": the same directory as
    [outputSpec] once joined to the results directory. *)
Definition dotOutputSpec : model.StorageSpec :=
  {| model.StorageSource := "ipfs"; model.Name := "./outputs";
     model.CID := ""; model.Path := "/outputs2" |}.

(** Log streams: lines ended by a newline (one with a carriage return
    before it, one empty), a last fragment, and a 64 KiB line. *)
Definition logLinesSample : list (list ascii) :=
  [(list_ascii_of_string "starting" ++ [bufio.cr])%list; [];
   list_ascii_of_string "done"].
Definition logTailSample : list ascii := list_ascii_of_string "partial".
Definition longLineSample : list ascii :=
  (repeat "a"%char bufio.MaxScanTokenSize ++ bufio.nl :: list_ascii_of_string "after")%list.

End Samples.

(** * Auxiliary definitions for the properties *)
Module Helpers.
Import docker.

(** The events of the output loop are mkdir calls. *)
Definition isMkdir (ev : event) : bool :=
  match ev with EvMkdir _ _ => true | _ => false end.

(** The events [cleanupJob] adds to the trace. *)
Definition cleanupEvents (env : Env) (e : Executor) (J : model.JobShard -> string)
           (shard : model.JobShard) : list event :=
  if ShouldKeepStack env then []
  else [EvRemoveObjectsWithLabel (WithTimeout Background 60) labelJobName
                                 (labelJobValue J e shard);
        EvLog (match RemoveObjectsWithLabel env (WithTimeout Background 60)
                       labelJobName (labelJobValue J e shard) with
               | None => DebugLevel | Some _ => ErrorLevel end)
              "Cleaned up job Docker resources"].

(** The validation error of an output with an empty name or path. *)
Definition outputValidationError (o : model.StorageSpec) : error :=
  if String.eqb (model.Name o) "" then
    ENew ("output volume has no name: " ++ model.fmtSpec o)
  else ENew ("output volume has no path: " ++ model.fmtSpec o).

(** The mount appended for a valid output whose host directory is [srcd]. *)
Definition outMount (srcd : string) (o : model.StorageSpec) : mount.Mount :=
  {| mount.Type_ := mount.TypeBind; mount.ReadOnly := false;
     mount.Source := srcd; mount.Target := model.Path o |}.

(** A prepared volume of the bind kind. *)
Definition isBindVol (v : model.StorageSpec * storage.StorageVolume) : bool :=
  storage.isBind (storage.Type_ (snd v)).

(** The read-only mount of a prepared bind volume. *)
Definition inMount (v : model.StorageSpec * storage.StorageVolume) : mount.Mount :=
  {| mount.Type_ := mount.TypeBind; mount.ReadOnly := true;
     mount.Source := storage.Source (snd v);
     mount.Target := storage.Target (snd v) |}.

(** The same collaborators, with [RemoveObjectsWithLabel] answering [rm]. *)
Definition withRemove (env : Env) (rm : Ctx -> string -> string -> option error)
  : Env :=
  {| GetShardStorageSpec := GetShardStorageSpec env;
     ParallelPrepareStorage := ParallelPrepareStorage env;
     MkdirFailure := MkdirFailure env;
     SKIP_IMAGE_PULL := SKIP_IMAGE_PULL env;
     PullImage := PullImage env;
     JSONMarshalWithMax := JSONMarshalWithMax env;
     ParseResourceUsageConfig := ParseResourceUsageConfig env;
     setupNetworkForJob := setupNetworkForJob env;
     ContainerCreate := ContainerCreate env;
     ContainerStart := ContainerStart env;
     FollowLogs := FollowLogs env;
     ContainerWait := ContainerWait env;
     ShouldKeepStack := ShouldKeepStack env;
     RemoveObjectsWithLabel := rm |}.

(** Any event but the removal of the job's objects. *)
Definition notRemove (ev : event) : bool :=
  match ev with EvRemoveObjectsWithLabel _ _ _ => false | _ => true end.

(** No dash in a string. *)
Definition dashFree (s : string) : bool :=
  forallb (fun c => negb (Ascii.eqb c "-"%char)) (list_ascii_of_string s).

(** The container configuration [RunShard] builds (lines 203-214) from the
    job spec's JSON [jsonJobSpec]. *)
Definition jobContainerConfig (J : model.JobShard -> string) (e : Executor)
           (shard : model.JobShard) (jsonJobSpec : string) : container.Config :=
  let spec := model.Spec (model.Job shard) in
  {| container.Image := model.Image (model.Docker spec);
     container.Tty := false;
     container.Env := app (model.EnvironmentVariables (model.Docker spec))
                          ["BACALHAU_JOB_SPEC=" ++ jsonJobSpec];
     container.Entrypoint := model.Entrypoint (model.Docker spec);
     container.Labels := jobContainerLabels J e shard;
     container.WorkingDir := model.WorkingDirectory (model.Docker spec) |}.

(** The pull event, when the image is pulled. *)
Definition pullEvents (env : Env) (image : string) : list event :=
  if String.eqb (SKIP_IMAGE_PULL env) "" then [EvPullImage image] else [].

(** What the scanner keeps true between passes: the window fits in the
    buffer, the buffer is no larger than the token limit, no error yet. *)
Definition scanInv (s : bufio.Scanner) : Prop :=
  (bufio.end_ s <= bufio.buf s)%nat /\
  (bufio.buf s <= bufio.MaxScanTokenSize)%nat /\
  bufio.err s = None.

(** The error the reader ends with, as the scanner records it. *)
Definition finalErr (final : option error) : bufio.scanErr :=
  match final with None => bufio.ErrEOF | Some e => bufio.ErrRead e end.

(** Lines, each followed by a newline. *)
Definition lineBytes (lines : list (list ascii)) : list ascii :=
  concat (map (fun l => (l ++ [bufio.nl])%list) lines).

(** The debug entry of a line. *)
Definition debugEntry (l : list ascii) : logger.entry :=
  (DebugLevel, None, string_of_list_ascii (bufio.dropCR l)).

(** The error entry of a stream that ended with [final]. *)
Definition finalEntries (final : option error) : list logger.entry :=
  match final with
  | None => []
  | Some e => [(ErrorLevel, Some (bufio.ErrRead e), "error consuming log")]
  end.

(** The mounts a container-create event passes to the daemon. *)
Definition createMounts (ev : event) : list mount.Mount :=
  match ev with
  | EvContainerCreate _ hc _ => container.Mounts hc
  | _ => []
  end.

End Helpers.

(** * Properties *)
Module Props.
Import docker Helpers.

(** ** Traces of the mount builder *)

Lemma outputMounts_trace env dir ms outs s r s' :
  outputMounts env dir ms outs s = (r, s') ->
  exists evs, trace s' = (trace s ++ evs)%list /\ forallb isMkdir evs = true.
Proof.
  revert ms s; induction outs as [|o outs IH]; intros ms s H; cbn in H.
  - inversion H; subst. exists []. rewrite app_nil_r. auto.
  - destruct (String.eqb (model.Name o) "");
      [inversion H; subst; exists []; rewrite app_nil_r; auto|].
    destruct (String.eqb (model.Path o) "");
      [inversion H; subst; exists []; rewrite app_nil_r; auto|].
    unfold bind, os_Mkdir in H.
    destruct (existsb _ (fs s)); [inversion H; subst; cbn; eexists; split; [reflexivity|reflexivity]|].
    destruct (MkdirFailure env _);
      [inversion H; subst; cbn; eexists; split; [reflexivity|reflexivity]|].
    apply IH in H as [evs [Ht Hf]]. cbn in Ht.
    rewrite <- app_assoc in Ht. eexists; split; [exact Ht|]. cbn. exact Hf.
Qed.

Lemma buildMounts_trace env dir vols outs s r s' :
  buildMounts env dir vols outs s = (r, s') ->
  exists evs, trace s' = (trace s ++ evs)%list /\ forallb isMkdir evs = true.
Proof.
  unfold buildMounts, bind, liftR.
  destruct (inputMounts [] vols); intros H.
  - eapply outputMounts_trace; exact H.
  - inversion H; subst. exists []. rewrite app_nil_r. auto.
Qed.

Lemma in_mkdirs ev evs :
  forallb isMkdir evs = true -> In ev evs -> isMkdir ev = true.
Proof. intros Hf Hin. rewrite forallb_forall in Hf. auto. Qed.

(** ** Stepping through [RunShardBody] *)

Ltac red_m :=
  cbv beta iota zeta delta [bind emit liftR ret fail] in *;
  cbn [fst snd trace fs] in *.

(** Split a hypothesis [In ev (l1 ++ [x] ++ ...)] into its cases, dropping
    those where [ev] is a different constructor. *)
Ltac no_ev H :=
  repeat (rewrite ?in_app_iff in H; cbn [In] in H);
  repeat match type of H with
         | _ \/ _ => destruct H as [H|H]
         | False => destruct H
         | _ = _ => discriminate H
         end.

(** Case on the next call whose answer the body waits for: the innermost
    [match] scrutinee, or the result of [buildMounts] with its trace. *)
Ltac step_m :=
  match goal with
  | |- context [match buildMounts ?a ?b ?c ?d ?st with _ => _ end] =>
      let HB := fresh "HB" in
      destruct (buildMounts a b c d st) as [[?ms|?err] ?s1] eqn:HB;
      apply buildMounts_trace in HB as [?evs [?Ht ?Hf]]
  | |- context [match ?x with _ => _ end] =>
      lazymatch x with
      | context [match _ with _ => _ end] => fail
      | _ => destruct x eqn:?
      end
  end; red_m.

(** An event of the body in a run that returned early is impossible:
    it is in the initial trace, in the mkdir events, or a different one. *)
Ltac refute_ev H0 Hf Hin :=
  exfalso; no_ev Hin;
  first [ contradiction
        | pose proof (in_mkdirs _ _ Hf Hin); discriminate ].

Lemma RunShardBody_wait J env e shard dir s id so se le code ce :
  ~ In (EvContainerWait id) (trace s) ->
  In (EvContainerWait id) (trace (snd (RunShardBody J env e shard dir s))) ->
  FollowLogs env id = (so, se, le) ->
  awaitResult (ContainerWait env id) = (code, ce) ->
  fst (RunShardBody J env e shard dir s) =
    Ok (WriteJobResults dir so se code (Multierr.Combine [ce; le])).
Proof.
  intros H0 Hin HF HW.
  unfold RunShardBody in *. red_m.
  repeat step_m.
  all: try rewrite Ht in Hin.
  all: try (refute_ev H0 Hf Hin).
  all: match goal with
       | H : FollowLogs ?ev ?a = _, Hh : awaitResult (ContainerWait ?ev ?a) = _ |- _ =>
           assert (a = id)
             by (no_ev Hin; first [congruence | refute_ev H0 Hf Hin]);
           subst a; congruence
       end.
Qed.

(** ** The deferred cleanup *)

Lemma cleanupJob_run J env e shard s :
  cleanupJob J env e shard s =
    (Ok tt, {| fs := fs s; trace := (trace s ++ cleanupEvents env e J shard)%list |}).
Proof.
  unfold cleanupJob, cleanupEvents.
  destruct (ShouldKeepStack env); red_m.
  - destruct s; cbn; rewrite app_nil_r; reflexivity.
  - rewrite <- app_assoc. reflexivity.
Qed.

(** [RunShard] is the body followed by the cleanup events. *)
Lemma RunShard_unfold J env e shard dir fs0 :
  RunShard J env e shard dir fs0 =
    let '(r, s) := RunShardBody J env e shard dir {| fs := fs0; trace := [] |} in
    (match r with Ok res => Ran res | Err err => Failed err end,
     {| fs := fs s; trace := (trace s ++ cleanupEvents env e J shard)%list |}).
Proof.
  unfold RunShard.
  destruct (RunShardBody J env e shard dir _) as [r s].
  rewrite cleanupJob_run. reflexivity.
Qed.

Lemma cleanupEvents_not_wait env e J shard id :
  ~ In (EvContainerWait id) (cleanupEvents env e J shard).
Proof.
  unfold cleanupEvents. destruct (ShouldKeepStack env); cbn;
    intros H; [exact H|].
  destruct H as [H|[H|[]]]; discriminate.
Qed.

Lemma Combine_Errors a b :
  Multierr.Errors (Multierr.Combine [a; b]) =
    (Multierr.Errors a ++ Multierr.Errors b)%list.
Proof.
  destruct a as [a|], b as [b|]; cbn; try reflexivity.
  - rewrite app_nil_r. reflexivity.
  - rewrite app_nil_r. reflexivity.
Qed.

(** C1: once a run reaches the wait step, the result carries the exit
    status code (0 when the wait channel errored) and the combination of
    the container error (the wait-channel error, else the message embedded
    in the exit status) with the log-follow error, whose error list is the
    container's followed by the log-follow's: neither is dropped. An exit
    with code 137, no embedded error and no log-follow error gives exit
    code 137 and a nil error; a wait-channel error is the first error
    reported (the whole error when log-follow succeeded), with exit
    code 0. *)
Theorem RunShard_wait_combined_error J env e shard dir fs0 id
        stdoutPipe stderrPipe logsErr :
  In (EvContainerWait id) (trace (snd (RunShard J env e shard dir fs0))) ->
  FollowLogs env id = (stdoutPipe, stderrPipe, logsErr) ->
  let containerError :=
    match ContainerWait env id with
    | FromErrCh w => Some w
    | FromStatusCh st =>
        match StatusError st with Some m => Some (ENew m) | None => None end
    end in
  let exitCode :=
    match ContainerWait env id with
    | FromErrCh _ => 0
    | FromStatusCh st => StatusCode st
    end in
  let combined := Multierr.Combine [containerError; logsErr] in
  fst (RunShard J env e shard dir fs0) =
    Ran (WriteJobResults dir stdoutPipe stderrPipe exitCode combined) /\
  Multierr.Errors combined =
    (Multierr.Errors containerError ++ Multierr.Errors logsErr)%list /\
  (ContainerWait env id =
     FromStatusCh {| StatusCode := 137; StatusError := None |} ->
   logsErr = None -> exitCode = 137 /\ combined = None) /\
  (forall w, ContainerWait env id = FromErrCh w ->
   exitCode = 0 /\ (logsErr = None -> combined = Some w) /\
   Multierr.Errors combined =
     (Multierr.Errors (Some w) ++ Multierr.Errors logsErr)%list).
Proof.
  intros Hin HF containerError exitCode combined.
  rewrite RunShard_unfold in *.
  destruct (RunShardBody J env e shard dir _) as [r s] eqn:HB.
  cbn [fst snd trace] in *.
  apply in_app_or in Hin as [Hin|Hin];
    [|exfalso; eapply cleanupEvents_not_wait; exact Hin].
  assert (Hres := RunShardBody_wait J env e shard dir
                    {| fs := fs0; trace := [] |} id stdoutPipe stderrPipe logsErr
                    exitCode containerError (fun H => H)).
  rewrite HB in Hres. cbn [fst snd] in Hres.
  specialize (Hres Hin HF).
  assert (HW : awaitResult (ContainerWait env id) = (exitCode, containerError)).
  { unfold exitCode, containerError, awaitResult.
    destruct (ContainerWait env id); reflexivity. }
  specialize (Hres HW). subst r.
  split; [reflexivity|].
  split; [apply Combine_Errors|].
  split.
  - intros Hw Hl. unfold exitCode, combined, containerError.
    rewrite Hw, Hl. split; reflexivity.
  - intros w Hw. unfold exitCode, combined, containerError.
    rewrite Hw. split; [reflexivity|]. split.
    + intros Hl. rewrite Hl. reflexivity.
    + rewrite Combine_Errors. reflexivity.
Qed.

(** ** Resource translation *)

Lemma int64_of_float64_range f :
  - 2 ^ 63 <= int64_of_float64 f < 2 ^ 63.
Proof.
  unfold int64_of_float64.
  destruct (truncZ f) as [z|]; [|lia].
  destruct (- 2 ^ 63 <=? z) eqn:H1, (z <? 2 ^ 63) eqn:H2; cbn;
    rewrite ?Z.leb_le, ?Z.ltb_lt in *; lia.
Qed.

(** C2 (as the code does it): the memory limit is the [uint64] byte count
    reinterpreted as [int64], so it is unchanged below [2^63] and wraps to
    [Memory - 2^64] from there; the CPU quota is the [float64] product
    [CPU * 1e9] truncated toward zero when it fits in [int64], and is
    always some [int64] (no error is raised when it does not fit); exactly
    one device request (device "0", capability gpu) is present when the GPU
    count is positive and none otherwise; the mounts are passed through. *)
Theorem hostConfigOf_resources mounts rr :
  let r := container.Resources (hostConfigOf mounts rr) in
  container.Mounts (hostConfigOf mounts rr) = mounts /\
  (model.Memory rr < 2 ^ 63 -> container.Memory r = model.Memory rr) /\
  (2 ^ 63 <= model.Memory rr -> container.Memory r = model.Memory rr - 2 ^ 64) /\
  (forall z, truncZ (PrimFloat.mul (model.CPU rr) NanoCPUCoefficient_f64) = Some z ->
     - 2 ^ 63 <= z < 2 ^ 63 -> container.NanoCPUs r = z) /\
  - 2 ^ 63 <= container.NanoCPUs r < 2 ^ 63 /\
  (0 < model.GPU rr ->
     container.DeviceRequests r =
       [{| container.DeviceIDs := ["0"]; container.Capabilities := [["gpu"]] |}]) /\
  (model.GPU rr <= 0 -> container.DeviceRequests r = []).
Proof.
  intros r. unfold r, hostConfigOf.
  cbn [container.Resources container.Mounts container.Memory
       container.NanoCPUs container.DeviceRequests].
  unfold int64_of_uint64.
  split; [reflexivity|].
  split; [intros H; apply Z.ltb_lt in H; rewrite H; reflexivity|].
  split; [intros H; destruct (model.Memory rr <? 2 ^ 63) eqn:E;
          [apply Z.ltb_lt in E; lia | reflexivity]|].
  split.
  { intros z Hz Hr. unfold int64_of_float64. rewrite Hz.
    destruct Hr as [H1 H2].
    apply Z.leb_le in H1. apply Z.ltb_lt in H2. rewrite H1, H2. reflexivity. }
  split; [apply int64_of_float64_range|].
  split.
  - intros H. apply Z.ltb_lt in H. rewrite H. reflexivity.
  - intros H. destruct (0 <? model.GPU rr) eqn:E; [apply Z.ltb_lt in E; lia|].
    reflexivity.
Qed.

(** C2 fails as stated: 10^10 cores is exactly the float [1e10] and
    [1e10 * 1e9 = 10^19] does not fit in [int64], yet the quota is set to
    [-2^63] without an error; a memory byte count of [2^63] becomes [-2^63];
    and 1.001 cores (the nearest float) give 1000999999, not 1001000000. *)
Lemma hostConfigOf_overflow_counterexample :
  truncZ 1e10%float = Some 10000000000 /\
  container.NanoCPUs (container.Resources (hostConfigOf []
    {| model.CPU := 1e10%float; model.Memory := 0; model.Disk := 0;
       model.GPU := 0 |})) = - 2 ^ 63 /\
  container.NanoCPUs (container.Resources (hostConfigOf []
    {| model.CPU := 1e10%float; model.Memory := 0; model.Disk := 0;
       model.GPU := 0 |})) <> 10000000000 * NanoCPUCoefficient /\
  container.Memory (container.Resources (hostConfigOf []
    {| model.CPU := 0%float; model.Memory := 2 ^ 63; model.Disk := 0;
       model.GPU := 0 |})) <> 2 ^ 63 /\
  container.NanoCPUs (container.Resources (hostConfigOf []
    {| model.CPU := 1.001%float; model.Memory := 0; model.Disk := 0;
       model.GPU := 0 |})) = 1000999999.
Proof.
  repeat split; vm_compute; congruence.
Qed.

(** ** Output validation *)

Lemma outputMounts_app env dir ms pre post s :
  outputMounts env dir ms (pre ++ post) s =
    match outputMounts env dir ms pre s with
    | (Ok ms', s') => outputMounts env dir ms' post s'
    | (Err err, s') => (Err err, s')
    end.
Proof.
  revert ms s; induction pre as [|o pre IH]; intros ms s; [reflexivity|].
  cbn [app outputMounts].
  destruct (String.eqb (model.Name o) ""); [reflexivity|].
  destruct (String.eqb (model.Path o) ""); [reflexivity|].
  cbv beta iota zeta delta [bind os_Mkdir].
  destruct (existsb _ (fs s)); [reflexivity|].
  destruct (MkdirFailure env _); [reflexivity|].
  apply IH.
Qed.

Lemma outputMounts_invalid_head env dir ms o post s :
  (model.Name o = "" \/ model.Path o = "") ->
  outputMounts env dir ms (o :: post) s = (Err (outputValidationError o), s).
Proof.
  intros H. cbn [outputMounts]. unfold outputValidationError.
  destruct (String.eqb (model.Name o) "") eqn:En; [reflexivity|].
  destruct H as [H|H]; [apply String.eqb_neq in En; contradiction|].
  rewrite H. reflexivity.
Qed.

Lemma buildMounts_invalid_single env dir vols o s :
  (model.Name o = "" \/ model.Path o = "") ->
  buildMounts env dir vols [o] s =
    (match inputMounts [] vols with
     | Ok _ => Err (outputValidationError o)
     | Err err => Err err
     end, s).
Proof.
  intros H. unfold buildMounts, bind, liftR.
  destruct (inputMounts [] vols); [|reflexivity].
  apply outputMounts_invalid_head; exact H.
Qed.

(** C3: an output spec with an empty name or path stops the output loop
    there: whatever the outputs before it did, nothing happens for it or
    for any later output (no mount, no mkdir, no state change), and when
    the earlier outputs succeeded the result is the validation error naming
    the spec. For a shard whose only output is such a spec, the run fails,
    with that validation error when storage resolution and the input mounts
    succeeded, and creates no directory and calls no mkdir. *)
Theorem output_validation_aborts J env e shard dir fs0 ms pre o post s :
  (model.Name o = "" \/ model.Path o = "") ->
  outputMounts env dir ms (pre ++ o :: post) s =
    match outputMounts env dir ms pre s with
    | (Ok _, s') => (Err (outputValidationError o), s')
    | (Err err, s') => (Err err, s')
    end /\
  (model.Outputs (model.Spec (model.Job shard)) = [o] ->
   (exists err, fst (RunShard J env e shard dir fs0) = Failed err) /\
   fs (snd (RunShard J env e shard dir fs0)) = fs0 /\
   (forall p perm,
      ~ In (EvMkdir p perm) (trace (snd (RunShard J env e shard dir fs0)))) /\
   (forall ss vols ms',
      GetShardStorageSpec env shard = Ok ss ->
      ParallelPrepareStorage env
        (model.Contexts (model.Spec (model.Job shard)) ++ ss)%list = Ok vols ->
      inputMounts [] vols = Ok ms' ->
      fst (RunShard J env e shard dir fs0) = Failed (outputValidationError o))).
Proof.
  intros Hinv. split.
  { rewrite outputMounts_app.
    destruct (outputMounts env dir ms pre s) as [[ms'|err] s'];
      [apply outputMounts_invalid_head; exact Hinv | reflexivity]. }
  intros Hout.
  assert (Hnm : forall p perm evs,
             ~ In (EvMkdir p perm) (evs ++ cleanupEvents env e J shard)%list <->
             ~ In (EvMkdir p perm) evs).
  { intros p perm evs. rewrite in_app_iff. unfold cleanupEvents.
    destruct (ShouldKeepStack env); cbn; intuition discriminate. }
  rewrite RunShard_unfold. unfold RunShardBody. red_m. rewrite Hout.
  destruct (GetShardStorageSpec env shard) as [ss0|err0] eqn:HG; red_m;
    [destruct (ParallelPrepareStorage env _) as [vols0|err0] eqn:HP; red_m;
     [rewrite buildMounts_invalid_single by exact Hinv;
      destruct (inputMounts [] vols0) as [ms0|err0] eqn:HI; red_m|]|].
  all: split; [eexists; reflexivity|].
  all: split; [reflexivity|].
  all: split; [intros p perm; rewrite Hnm; cbn; intuition discriminate|].
  all: intros ss vols ms' HG' HP' HI'; cbn [fst]; congruence.
Qed.

(** ** Output mounts *)

(** C4 (code bug): a job whose output is named ["../escape"], run with
    the results directory ["/results"]: the run creates the host directory
    ["/escape"], outside the results directory, keeps it, and mounts it
    read-write into the container it creates, although the mount is meant
    to be a named folder in the job results folder. *)
Lemma RunShard_output_escape :
  In (EvMkdir "/escape" outputDirPerm)
     (trace (snd (RunShard Samples.sampleShardID (Samples.sampleEnv None (Samples.exited 0))
                   Samples.sampleExecutor (Samples.sampleShard [Samples.escapeOutput])
                   "/results" []))) /\
  In "/escape"
     (fs (snd (RunShard Samples.sampleShardID (Samples.sampleEnv None (Samples.exited 0))
                Samples.sampleExecutor (Samples.sampleShard [Samples.escapeOutput])
                "/results" []))) /\
  In {| mount.Type_ := mount.TypeBind; mount.ReadOnly := false;
        mount.Source := "/escape"; mount.Target := "/out" |}
     (flat_map createMounts
        (trace (snd (RunShard Samples.sampleShardID (Samples.sampleEnv None (Samples.exited 0))
                       Samples.sampleExecutor (Samples.sampleShard [Samples.escapeOutput])
                       "/results" [])))) /\
  String.prefix "/results/" "/escape" = false.
Proof. vm_compute. intuition. Qed.

(** ** Input mounts *)

Lemma inputMounts_all_bind ms vols :
  forallb isBindVol vols = true ->
  inputMounts ms vols = Ok (ms ++ map inMount vols)%list.
Proof.
  revert ms; induction vols as [|[sp v] vols IH]; intros ms H; cbn in *.
  - rewrite app_nil_r. reflexivity.
  - apply andb_prop in H as [H1 H2]. unfold isBindVol in H1. cbn in H1.
    rewrite H1, IH by exact H2. rewrite <- app_assoc. reflexivity.
Qed.

Lemma inputMounts_first_other ms pre sp v post :
  forallb isBindVol pre = true -> storage.isBind (storage.Type_ v) = false ->
  inputMounts ms (pre ++ (sp, v) :: post)%list =
    Err (ENew ("unknown storage volume type: " ++
               storage.fmtType (storage.Type_ v))).
Proof.
  revert ms; induction pre as [|[sp' v'] pre IH]; intros ms H Hv; cbn in *.
  - rewrite Hv. reflexivity.
  - apply andb_prop in H as [H1 H2]. unfold isBindVol in H1. cbn in H1.
    rewrite H1. apply IH; assumption.
Qed.

Lemma cleanupEvents_no_create_mkdir env e J shard :
  (forall cfg hc name, ~ In (EvContainerCreate cfg hc name) (cleanupEvents env e J shard)) /\
  (forall p perm, ~ In (EvMkdir p perm) (cleanupEvents env e J shard)).
Proof.
  unfold cleanupEvents. destruct (ShouldKeepStack env); cbn;
    split; intros; intuition discriminate.
Qed.

(** C5: each prepared bind volume gives a read-only bind mount with its
    source and target copied; the first volume of another kind stops the
    loop with an "unknown storage volume type" error and no mount list. In a
    run of the shard this error is the failure reported, and no output
    directory is created and no container is created. *)
Theorem inputMounts_bind_only :
  (forall ms vols, forallb isBindVol vols = true ->
     inputMounts ms vols = Ok (ms ++ map inMount vols)%list) /\
  (forall ms pre sp v post,
     forallb isBindVol pre = true -> storage.isBind (storage.Type_ v) = false ->
     inputMounts ms (pre ++ (sp, v) :: post)%list =
       Err (ENew ("unknown storage volume type: " ++
                  storage.fmtType (storage.Type_ v)))) /\
  (forall J env e shard dir fs0 ss pre sp v post,
     GetShardStorageSpec env shard = Ok ss ->
     ParallelPrepareStorage env
       (model.Contexts (model.Spec (model.Job shard)) ++ ss)%list =
       Ok (pre ++ (sp, v) :: post)%list ->
     forallb isBindVol pre = true -> storage.isBind (storage.Type_ v) = false ->
     fst (RunShard J env e shard dir fs0) =
       Failed (ENew ("unknown storage volume type: " ++
                     storage.fmtType (storage.Type_ v))) /\
     fs (snd (RunShard J env e shard dir fs0)) = fs0 /\
     (forall cfg hc name,
        ~ In (EvContainerCreate cfg hc name)
             (trace (snd (RunShard J env e shard dir fs0)))) /\
     (forall p perm,
        ~ In (EvMkdir p perm) (trace (snd (RunShard J env e shard dir fs0))))).
Proof.
  split; [exact inputMounts_all_bind|].
  split; [exact inputMounts_first_other|].
  intros J env e shard dir fs0 ss pre sp v post HG HP Hpre Hv.
  destruct (cleanupEvents_no_create_mkdir env e J shard) as [Hc Hm].
  rewrite RunShard_unfold. unfold RunShardBody. red_m.
  rewrite HG. red_m. rewrite HP. red_m.
  unfold buildMounts. red_m.
  rewrite inputMounts_first_other by assumption. red_m.
  split; [reflexivity|]. split; [reflexivity|].
  split; intros *; rewrite in_app_iff; cbn;
    intros [H|H]; [intuition discriminate|eapply Hc; exact H|
                   intuition discriminate|eapply Hm; exact H].
Qed.

(** ** Start failures *)

Lemma RunShardBody_start J env e shard dir s id err :
  ~ In (EvContainerStart id) (trace s) ->
  In (EvContainerStart id) (trace (snd (RunShardBody J env e shard dir s))) ->
  ContainerStart env id = Some err ->
  fst (RunShardBody J env e shard dir s) = Err (EWrap (startErrorMsg err) err).
Proof.
  intros H0 Hin HS.
  unfold RunShardBody in *. red_m.
  repeat step_m.
  all: try rewrite Ht in Hin.
  all: try (refute_ev H0 Hf Hin).
  all: match goal with
       | H : ContainerStart ?ev ?a = _ |- _ =>
           assert (a = id)
             by (no_ev Hin; first [congruence | refute_ev H0 Hf Hin]);
           subst a; congruence
       end.
Qed.

Lemma cleanupEvents_not_start env e J shard id :
  ~ In (EvContainerStart id) (cleanupEvents env e J shard).
Proof.
  unfold cleanupEvents. destruct (ShouldKeepStack env); cbn;
    intros H; [exact H|].
  destruct H as [H|[H|[]]]; discriminate.
Qed.

(** C7: when the run starts container [id] and the start fails with [err],
    the run fails with [err] wrapped in "Executable file not found" if the
    text of [err] contains "executable file not found", and in "failed to
    start container" otherwise. *)
Theorem RunShard_start_failure J env e shard dir fs0 id err :
  In (EvContainerStart id) (trace (snd (RunShard J env e shard dir fs0))) ->
  ContainerStart env id = Some err ->
  fst (RunShard J env e shard dir fs0) = Failed (EWrap (startErrorMsg err) err) /\
  (Contains (Error err) "executable file not found" = true ->
   fst (RunShard J env e shard dir fs0) =
     Failed (EWrap "Executable file not found" err)) /\
  (Contains (Error err) "executable file not found" = false ->
   fst (RunShard J env e shard dir fs0) =
     Failed (EWrap "failed to start container" err)).
Proof.
  intros Hin HS.
  assert (H : fst (RunShard J env e shard dir fs0) =
                Failed (EWrap (startErrorMsg err) err)).
  { rewrite RunShard_unfold in *.
    destruct (RunShardBody J env e shard dir _) as [r s] eqn:HB.
    cbn [fst snd trace] in *.
    apply in_app_or in Hin as [Hin|Hin];
      [|exfalso; eapply cleanupEvents_not_start; exact Hin].
    pose proof (RunShardBody_start J env e shard dir
                  {| fs := fs0; trace := [] |} id err (fun H => H)) as Hr.
    rewrite HB in Hr. cbn [fst snd] in Hr.
    rewrite (Hr Hin HS). reflexivity. }
  split; [exact H|].
  unfold startErrorMsg in H.
  split; intros Hc; rewrite Hc in H; exact H.
Qed.

(** ** The deferred cleanup, last on every path *)

Lemma outputMounts_withRemove env rm dir ms outs s :
  outputMounts (withRemove env rm) dir ms outs s = outputMounts env dir ms outs s.
Proof.
  revert ms s; induction outs as [|o outs IH]; intros ms s; [reflexivity|].
  cbn [outputMounts].
  destruct (String.eqb (model.Name o) ""); [reflexivity|].
  destruct (String.eqb (model.Path o) ""); [reflexivity|].
  cbv beta iota zeta delta [bind os_Mkdir]. cbn [MkdirFailure withRemove].
  destruct (existsb _ (fs s)); [reflexivity|].
  destruct (MkdirFailure env _); [reflexivity|].
  apply IH.
Qed.

Lemma buildMounts_withRemove env rm dir vols outs s :
  buildMounts (withRemove env rm) dir vols outs s = buildMounts env dir vols outs s.
Proof.
  unfold buildMounts, bind, liftR.
  destruct (inputMounts [] vols); [apply outputMounts_withRemove|reflexivity].
Qed.

Lemma RunShardBody_withRemove J env rm e shard dir s :
  RunShardBody J (withRemove env rm) e shard dir s = RunShardBody J env e shard dir s.
Proof.
  unfold RunShardBody.
  change (GetShardStorageSpec (withRemove env rm)) with (GetShardStorageSpec env).
  change (ParallelPrepareStorage (withRemove env rm)) with (ParallelPrepareStorage env).
  change (SKIP_IMAGE_PULL (withRemove env rm)) with (SKIP_IMAGE_PULL env).
  change (PullImage (withRemove env rm)) with (PullImage env).
  change (JSONMarshalWithMax (withRemove env rm)) with (JSONMarshalWithMax env).
  change (ParseResourceUsageConfig (withRemove env rm))
    with (ParseResourceUsageConfig env).
  change (setupNetworkForJob (withRemove env rm)) with (setupNetworkForJob env).
  change (ContainerCreate (withRemove env rm)) with (ContainerCreate env).
  change (ContainerStart (withRemove env rm)) with (ContainerStart env).
  change (FollowLogs (withRemove env rm)) with (FollowLogs env).
  change (ContainerWait (withRemove env rm)) with (ContainerWait env).
  red_m.
  repeat (match goal with
          | |- context [match ?x with _ => _ end] =>
              lazymatch x with
              | context [match _ with _ => _ end] => fail
              | context [buildMounts] =>
                  first [rewrite buildMounts_withRemove | destruct x eqn:?]
              | _ => destruct x eqn:?
              end
          end; red_m).
  all: reflexivity.
Qed.

Lemma mkdirs_notRemove evs :
  forallb isMkdir evs = true -> forallb notRemove evs = true.
Proof.
  induction evs as [|ev evs IH]; [reflexivity|].
  cbn. destruct ev; cbn; try discriminate. exact IH.
Qed.

Lemma RunShardBody_notRemove J env e shard dir s :
  forallb notRemove (trace s) = true ->
  forallb notRemove (trace (snd (RunShardBody J env e shard dir s))) = true.
Proof.
  intros H0. unfold RunShardBody. red_m.
  repeat step_m.
  all: try rewrite Ht.
  all: rewrite ?forallb_app; cbn [forallb notRemove andb];
       rewrite ?H0, ?(mkdirs_notRemove _ Hf); reflexivity.
Qed.

(** C8: whatever the body of [RunShard] returned -- early on a failed step
    or with the container's result -- the cleanup runs after it and its
    events are the last of the run; the body never removes the job's
    objects itself. Unless the stack is kept for debugging (then nothing
    happens), the cleanup removes the objects labelled with the job label
    under a fresh one-minute context derived from the background context,
    not the caller's, and logs the outcome: at debug level on success, at
    error level on failure. The outcome of the run is that of the body, and
    does not depend on what the removal answers. *)
Theorem RunShard_cleanup_last J env e shard dir fs0 :
  let body := RunShardBody J env e shard dir {| fs := fs0; trace := [] |} in
  snd (RunShard J env e shard dir fs0) =
    {| fs := fs (snd body);
       trace := (trace (snd body) ++ cleanupEvents env e J shard)%list |} /\
  fst (RunShard J env e shard dir fs0) =
    match fst body with Ok r => Ran r | Err err => Failed err end /\
  forallb notRemove (trace (snd body)) = true /\
  (ShouldKeepStack env = true -> cleanupEvents env e J shard = []) /\
  (ShouldKeepStack env = false ->
   cleanupEvents env e J shard =
     [EvRemoveObjectsWithLabel (WithTimeout Background 60) labelJobName
                               (labelJobValue J e shard);
      EvLog (match RemoveObjectsWithLabel env (WithTimeout Background 60)
                     labelJobName (labelJobValue J e shard) with
             | None => DebugLevel | Some _ => ErrorLevel end)
            "Cleaned up job Docker resources"]) /\
  (forall rm,
     fst (RunShard J (withRemove env rm) e shard dir fs0) =
       fst (RunShard J env e shard dir fs0)).
Proof.
  intros body.
  split; [|split; [|split; [|split; [|split]]]].
  - rewrite RunShard_unfold. unfold body.
    destruct (RunShardBody J env e shard dir _) as [r s]; reflexivity.
  - rewrite RunShard_unfold. unfold body.
    destruct (RunShardBody J env e shard dir _) as [r s]; reflexivity.
  - apply RunShardBody_notRemove. reflexivity.
  - intros H. unfold cleanupEvents. rewrite H. reflexivity.
  - intros H. unfold cleanupEvents. rewrite H. reflexivity.
  - intros rm. rewrite !RunShard_unfold, RunShardBody_withRemove.
    destruct (RunShardBody J env e shard dir _) as [r s]; reflexivity.
Qed.

(** ** Order of the mount list *)

Lemma inputMounts_ok ms0 vols ms :
  inputMounts ms0 vols = Ok ms -> ms = (ms0 ++ map inMount vols)%list.
Proof.
  revert ms0; induction vols as [|[sp v] vols IH]; intros ms0 H; cbn in H.
  - inversion H. rewrite app_nil_r. reflexivity.
  - destruct (storage.isBind (storage.Type_ v)); [|discriminate].
    apply IH in H. rewrite H, <- app_assoc. reflexivity.
Qed.

Lemma outputMounts_ok env dir ms0 outs s ms s' :
  outputMounts env dir ms0 outs s = (Ok ms, s') ->
  ms = (ms0 ++ map (fun o => outMount (Filepath.Join2 dir (model.Name o)) o) outs)%list.
Proof.
  revert ms0 s; induction outs as [|o outs IH]; intros ms0 s H; cbn in H.
  - inversion H. rewrite app_nil_r. reflexivity.
  - destruct (String.eqb (model.Name o) ""); [discriminate|].
    destruct (String.eqb (model.Path o) ""); [discriminate|].
    cbv beta iota zeta delta [bind os_Mkdir] in H.
    destruct (existsb _ (fs s)); [discriminate|].
    destruct (MkdirFailure env _); [discriminate|].
    apply IH in H. rewrite H, <- app_assoc. reflexivity.
Qed.

(** C9: a mount list that the builder returns is the input mounts, in the
    order of the prepared volumes (the order in which [range] visited the
    map), followed by the output mounts in the order of the job's outputs:
    one mount per volume and per output, nothing merged or dropped, so two
    mounts with the same target both stay. *)
Theorem buildMounts_order env dir vols outs s ms s' :
  buildMounts env dir vols outs s = (Ok ms, s') ->
  ms = (map inMount vols ++
        map (fun o => outMount (Filepath.Join2 dir (model.Name o)) o) outs)%list /\
  map mount.Target ms =
    (map (fun v => storage.Target (snd v)) vols ++ map model.Path outs)%list /\
  length ms = (length vols + length outs)%nat.
Proof.
  intros H. unfold buildMounts, bind, liftR in H.
  destruct (inputMounts [] vols) as [ms0|err] eqn:HI; [|discriminate].
  apply inputMounts_ok in HI. apply outputMounts_ok in H. subst ms0.
  cbn [app] in H.
  assert (Hm : ms = (map inMount vols ++
        map (fun o => outMount (Filepath.Join2 dir (model.Name o)) o) outs)%list)
    by exact H.
  split; [exact Hm|]. subst ms.
  rewrite map_app, !map_map, length_app, !length_map.
  split; reflexivity.
Qed.

(** ** The submit-request check *)

Section VerifyProps.
Import publicapi.

(** C10: the check accepts a request (returns nil) exactly when the client
    ID, signature and public key are non-empty, the key matches the ID, the
    payload marshals to JSON and the signature verifies over that JSON under
    the key. Otherwise it returns the error of the first failed condition,
    in that order, each with its own message (the collaborator's error
    wrapped where there is one); the check has no other effect. *)
Theorem verifySubmitRequest_spec P Jm V req :
  let id := ClientID (JobCreatePayload req) in
  let sig := ClientSignature req in
  let key := ClientPublicKey req in
  (verifySubmitRequest P Jm V req = None <->
   id <> "" /\ sig <> "" /\ key <> "" /\ P key id = Ok true /\
   exists data, Jm (JobCreatePayload req) = Ok data /\ V data sig key = None) /\
  (id = "" ->
   verifySubmitRequest P Jm V req =
     Some (ENew "job create payload must contain a client ID")) /\
  (id <> "" -> sig = "" ->
   verifySubmitRequest P Jm V req = Some (ENew "client's signature is required")) /\
  (id <> "" -> sig <> "" -> key = "" ->
   verifySubmitRequest P Jm V req = Some (ENew "client's public key is required")) /\
  (id <> "" -> sig <> "" -> key <> "" ->
   (forall err, P key id = Err err ->
      verifySubmitRequest P Jm V req =
        Some (EWrap "error verifying client ID" err)) /\
   (P key id = Ok false ->
      verifySubmitRequest P Jm V req =
        Some (ENew "client's public key does not match client ID")) /\
   (P key id = Ok true ->
    (forall err, Jm (JobCreatePayload req) = Err err ->
       verifySubmitRequest P Jm V req =
         Some (EWrap "error marshaling job data" err)) /\
    (forall data err, Jm (JobCreatePayload req) = Ok data ->
       V data sig key = Some err ->
       verifySubmitRequest P Jm V req =
         Some (EWrap "client's signature is invalid" err)))) /\
  NoDup ["job create payload must contain a client ID";
         "client's signature is required";
         "client's public key is required";
         "error verifying client ID";
         "client's public key does not match client ID";
         "error marshaling job data";
         "client's signature is invalid"].
Proof.
  intros id sig key.
  unfold verifySubmitRequest. fold id sig key.
  split; [|split; [|split; [|split; [|split]]]].
  - destruct (String.eqb id "") eqn:Ei.
    { split; [discriminate|]. intros (Hi & _). apply String.eqb_eq in Ei.
      contradiction. }
    destruct (String.eqb sig "") eqn:Es.
    { split; [discriminate|]. intros (_ & Hs & _). apply String.eqb_eq in Es.
      contradiction. }
    destruct (String.eqb key "") eqn:Ek.
    { split; [discriminate|]. intros (_ & _ & Hk & _). apply String.eqb_eq in Ek.
      contradiction. }
    apply String.eqb_neq in Ei, Es, Ek.
    destruct (P key id) as [[|]|err] eqn:HP.
    + destruct (Jm (JobCreatePayload req)) as [data|err] eqn:HJ.
      * destruct (V data sig key) as [err|] eqn:HV.
        -- split; [discriminate|]. intros (_ & _ & _ & _ & d & Hd & Hv).
           injection Hd as <-. congruence.
        -- split; [intros _|intros _; reflexivity].
           split; [exact Ei|]. split; [exact Es|]. split; [exact Ek|].
           split; [reflexivity|]. exists data. split; reflexivity || exact HV.
      * split; [discriminate|]. intros (_ & _ & _ & _ & d & Hd & _). discriminate.
    + split; [discriminate|]. intros (_ & _ & _ & H & _). discriminate.
    + split; [discriminate|]. intros (_ & _ & _ & H & _). discriminate.
  - intros H. rewrite H. reflexivity.
  - intros Hi Hs. apply String.eqb_neq in Hi. rewrite Hi, Hs. reflexivity.
  - intros Hi Hs Hk. apply String.eqb_neq in Hi, Hs. rewrite Hi, Hs, Hk.
    reflexivity.
  - intros Hi Hs Hk. apply String.eqb_neq in Hi, Hs, Hk. rewrite Hi, Hs, Hk.
    split; [intros err H; rewrite H; reflexivity|].
    split; [intros H; rewrite H; reflexivity|].
    intros H; rewrite H.
    split; [intros err HJ; rewrite HJ; reflexivity|].
    intros data err HJ HV. rewrite HJ, HV. reflexivity.
  - repeat constructor; cbn; intros H; repeat destruct H as [H|H];
      try discriminate; exact H.
Qed.

End VerifyProps.

(** ** Names and labels of the job's Docker objects *)

Lemma dashFree_not_in s :
  dashFree s = true -> ~ In "-"%char (list_ascii_of_string s).
Proof.
  unfold dashFree. intros H Hin. rewrite forallb_forall in H.
  specialize (H _ Hin). rewrite Ascii.eqb_refl in H. discriminate.
Qed.

Lemma list_ascii_of_string_app a b :
  list_ascii_of_string (a ++ b) =
    (list_ascii_of_string a ++ list_ascii_of_string b)%list.
Proof. induction a as [|c a IH]; cbn; [reflexivity|]. rewrite IH. reflexivity. Qed.

Lemma list_ascii_of_string_inj a b :
  list_ascii_of_string a = list_ascii_of_string b -> a = b.
Proof.
  intros H. rewrite <- (string_of_list_ascii_of_string a),
                    <- (string_of_list_ascii_of_string b), H.
  reflexivity.
Qed.

Lemma append_cancel_l a x y : (a ++ x = a ++ y)%string -> x = y.
Proof.
  induction a as [|c a IH]; cbn; [auto|]. intros H. injection H. exact IH.
Qed.

(** A separator that is not in the first parts splits at the same place. *)
Lemma split_first (c : ascii) l1 l1' r r' :
  ~ In c l1 -> ~ In c l1' -> (l1 ++ c :: r = l1' ++ c :: r')%list ->
  l1 = l1' /\ r = r'.
Proof.
  revert l1'; induction l1 as [|a l1 IH]; intros [|a' l1'] H1 H1' H; cbn in *.
  - injection H. auto.
  - injection H as Ha _. subst a'. exfalso. apply H1'. left. reflexivity.
  - injection H as Ha _. subst a. exfalso. apply H1. left. reflexivity.
  - injection H as Ha H. subst a'.
    destruct (IH l1' (fun h => H1 (or_intror h)) (fun h => H1' (or_intror h)) H)
      as [-> ->].
    auto.
Qed.

(** A separator that is not in the last parts splits at the same place. *)
Lemma split_last (c : ascii) l1 l1' r r' :
  ~ In c r -> ~ In c r' -> (l1 ++ c :: r = l1' ++ c :: r')%list ->
  l1 = l1' /\ r = r'.
Proof.
  intros Hr Hr' H. apply (f_equal (@rev ascii)) in H.
  rewrite !rev_app_distr in H. cbn [rev] in H. rewrite <- !app_assoc in H.
  cbn [app] in H.
  destruct (split_first c (rev r) (rev r') (rev l1) (rev l1')) as [E1 E2].
  - rewrite <- in_rev. exact Hr.
  - rewrite <- in_rev. exact Hr'.
  - exact H.
  - split; [rewrite <- (rev_involutive l1), <- (rev_involutive l1'), E2
           |rewrite <- (rev_involutive r), <- (rev_involutive r'), E1];
      reflexivity.
Qed.

Lemma string_of_uint_dashFree d : dashFree (NilEmpty.string_of_uint d) = true.
Proof. induction d; cbn; auto. Qed.

Lemma Sprint_int_dashFree z : 0 <= z -> dashFree (Sprint_int z) = true.
Proof.
  destruct z as [|p|p]; intros Hz; [reflexivity| |lia].
  cbn [Sprint_int]. unfold NilZero.string_of_uint.
  destruct (Pos.to_uint p); try reflexivity; apply string_of_uint_dashFree.
Qed.

Lemma Sprint_int_inj z z' : 0 <= z -> 0 <= z' -> Sprint_int z = Sprint_int z' -> z = z'.
Proof.
  assert (Hz : forall p, Sprint_int Z0 <> Sprint_int (Zpos p)).
  { intros p H. cbn [Sprint_int] in H.
    apply (f_equal NilZero.uint_of_string) in H.
    rewrite NilZero.usu in H by apply DecimalPos.Unsigned.to_uint_nonnil.
    injection H as H. apply (DecimalPos.Unsigned.to_uint_nonzero p).
    rewrite <- H. reflexivity. }
  destruct z as [|p|p], z' as [|p'|p']; intros H1 H2 H; try lia.
  - exfalso. exact (Hz _ H).
  - exfalso. exact (Hz _ (eq_sym H)).
  - cbn [Sprint_int] in H. apply (f_equal NilZero.uint_of_string) in H.
    rewrite !NilZero.usu in H by apply DecimalPos.Unsigned.to_uint_nonnil.
    injection H as H. apply DecimalPos.Unsigned.to_uint_inj in H. subst.
    reflexivity.
Qed.

Lemma jobContainerName_eq e shard :
  jobContainerName e shard =
    ("bacalhau-" ++ ID e ++ "-" ++ model.ID (model.Metadata (model.Job shard)) ++
     "-" ++ Sprint_int (model.Index shard) ++ "-executor")%string.
Proof. reflexivity. Qed.

(** Two names with the same prefix [pre], a dash-separated job ID, a
    dash-free index and the same suffix have the same job ID and index. *)
Lemma name_tail_inj j j' d d' :
  dashFree d = true -> dashFree d' = true ->
  (j ++ "-" ++ d ++ "-executor")%string = (j' ++ "-" ++ d' ++ "-executor")%string ->
  j = j' /\ d = d'.
Proof.
  intros Hd Hd' H. apply (f_equal list_ascii_of_string) in H.
  rewrite !list_ascii_of_string_app in H. cbn [list_ascii_of_string app] in H.
  set (sfx := list_ascii_of_string "-executor") in H.
  assert (H2 : ((list_ascii_of_string j ++ "-"%char :: list_ascii_of_string d) ++
                sfx)%list =
               ((list_ascii_of_string j' ++ "-"%char :: list_ascii_of_string d') ++
                sfx)%list).
  { rewrite <- !app_assoc. exact H. }
  apply app_inv_tail in H2.
  destruct (split_last _ _ _ _ _ (dashFree_not_in _ Hd) (dashFree_not_in _ Hd') H2)
    as [E1 E2].
  split; apply list_ascii_of_string_inj; assumption.
Qed.

(** C6 (amended): the container name is
    ["bacalhau-{executorID}-{jobID}-{index}-executor"] and the job label
    value is the executor ID followed directly by the shard's identity
    string; both are functions of their inputs, so a retry derives the same
    values. Equal names come from the same job ID and index when both
    indices are non-negative and the executor IDs are equal or both free of
    dashes (job IDs may contain dashes), and then from the same executor ID.
    For one executor, two shards get the same label value exactly when their
    identity strings are equal. *)
Theorem jobContainerName_injective J e e' shard shard' :
  jobContainerName e shard =
    ("bacalhau-" ++ ID e ++ "-" ++ model.ID (model.Metadata (model.Job shard)) ++
     "-" ++ Sprint_int (model.Index shard) ++ "-executor")%string /\
  labelJobValue J e shard = (ID e ++ J shard)%string /\
  (0 <= model.Index shard -> 0 <= model.Index shard' ->
   (ID e = ID e' \/ (dashFree (ID e) = true /\ dashFree (ID e') = true)) ->
   jobContainerName e shard = jobContainerName e' shard' ->
   ID e = ID e' /\
   model.ID (model.Metadata (model.Job shard)) =
     model.ID (model.Metadata (model.Job shard')) /\
   model.Index shard = model.Index shard') /\
  (ID e = ID e' ->
   (labelJobValue J e shard = labelJobValue J e' shard' <-> J shard = J shard')).
Proof.
  split; [reflexivity|]. split; [reflexivity|]. split.
  - intros Hi Hi' HE H. rewrite !jobContainerName_eq in H.
    cbn [append] in H.
    repeat match type of H with
           | String _ _ = String _ _ => injection H as H
           end.
    assert (Hsame : ID e = ID e' /\
      (model.ID (model.Metadata (model.Job shard)) ++ "-" ++
       Sprint_int (model.Index shard) ++ "-executor")%string =
      (model.ID (model.Metadata (model.Job shard')) ++ "-" ++
       Sprint_int (model.Index shard') ++ "-executor")%string).
    { destruct HE as [HE|[Hd Hd']].
      - split; [exact HE|]. rewrite HE in H. apply append_cancel_l in H.
        injection H as H. exact H.
      - apply (f_equal list_ascii_of_string) in H.
        rewrite !list_ascii_of_string_app in H. cbn [list_ascii_of_string app] in H.
        destruct (split_first _ _ _ _ _ (dashFree_not_in _ Hd)
                    (dashFree_not_in _ Hd') H) as [E1 E2].
        split; apply list_ascii_of_string_inj; [exact E1|exact E2]. }
    destruct Hsame as [HE' Ht].
    destruct (name_tail_inj _ _ _ _ (Sprint_int_dashFree _ Hi)
                (Sprint_int_dashFree _ Hi') Ht) as [Ej Ed].
    split; [exact HE'|]. split; [exact Ej|].
    apply Sprint_int_inj; assumption.
  - intros HE. unfold labelJobValue. rewrite HE. split.
    + apply append_cancel_l.
    + intros H. rewrite H. reflexivity.
Qed.

(** Executor ["a-b"] running job ["c"] and executor ["a"] running job
    ["b-c"], both at index 0, name their containers alike. *)
Lemma jobContainerName_collision_counterexample :
  ID Samples.executorAB <> ID Samples.executorA /\
  jobContainerName Samples.executorAB (Samples.jobShardNamed "c") =
    "bacalhau-a-b-c-0-executor" /\
  jobContainerName Samples.executorA (Samples.jobShardNamed "b-c") =
    "bacalhau-a-b-c-0-executor".
Proof. split; [discriminate|]. split; reflexivity. Qed.

(** ** The steps of a run *)

(** The state after the two storage steps. *)
Lemma existsb_eqb_false p l :
  existsb (String.eqb p) l = false -> ~ In p l.
Proof.
  intros H Hin. assert (Ht : existsb (String.eqb p) l = true).
  { apply existsb_exists. exists p. split; [exact Hin|apply String.eqb_refl]. }
  congruence.
Qed.

Lemma outputMounts_ok_fs env dir ms0 outs s ms s' :
  outputMounts env dir ms0 outs s = (Ok ms, s') ->
  let dirs := map (fun o => Filepath.Join2 dir (model.Name o)) outs in
  fs s' = (rev dirs ++ fs s)%list /\ NoDup dirs /\
  Forall (fun p => ~ In p (fs s)) dirs /\
  Forall (fun o => model.Name o <> "" /\ model.Path o <> "") outs.
Proof.
  revert ms0 s; induction outs as [|o outs IH]; intros ms0 s H; cbn in H.
  - inversion H; subst. cbn. repeat split; constructor.
  - destruct (String.eqb (model.Name o) "") eqn:En; [discriminate|].
    destruct (String.eqb (model.Path o) "") eqn:Ep; [discriminate|].
    cbv beta iota zeta delta [bind os_Mkdir] in H.
    destruct (existsb _ (fs s)) eqn:Ex; [discriminate|].
    destruct (MkdirFailure env _); [discriminate|].
    apply IH in H as [Hfs [Hnd [Hnew Hval]]]. cbn [fs] in Hfs, Hnew.
    apply existsb_eqb_false in Ex.
    cbn [map rev]. split; [rewrite Hfs, <- app_assoc; reflexivity|].
    split; [constructor; [|exact Hnd]|].
    { intros Hin. rewrite Forall_forall in Hnew.
      apply (Hnew _ Hin). left. reflexivity. }
    split; [constructor; [exact Ex|]|].
    { rewrite Forall_forall in Hnew |- *. intros q Hq Hin.
      apply (Hnew q Hq). right. exact Hin. }
    constructor; [|exact Hval].
    split; apply String.eqb_neq; assumption.
Qed.

Lemma outputMounts_ok_trace env dir ms0 outs s ms s' :
  outputMounts env dir ms0 outs s = (Ok ms, s') ->
  trace s' = (trace s ++
    map (fun o => EvMkdir (Filepath.Join2 dir (model.Name o)) outputDirPerm) outs)%list.
Proof.
  revert ms0 s; induction outs as [|o outs IH]; intros ms0 s H; cbn in H.
  - inversion H; subst. cbn [map]. rewrite app_nil_r. reflexivity.
  - destruct (String.eqb (model.Name o) ""); [discriminate|].
    destruct (String.eqb (model.Path o) ""); [discriminate|].
    cbv beta iota zeta delta [bind os_Mkdir] in H.
    destruct (existsb _ (fs s)); [discriminate|].
    destruct (MkdirFailure env _); [discriminate|].
    apply IH in H. cbn [trace] in H. rewrite H, <- app_assoc. reflexivity.
Qed.

Lemma buildMounts_ok_state env dir vols outs s ms s' :
  buildMounts env dir vols outs s = (Ok ms, s') ->
  trace s' = (trace s ++
    map (fun o => EvMkdir (Filepath.Join2 dir (model.Name o)) outputDirPerm) outs)%list /\
  fs s' = (rev (map (fun o => Filepath.Join2 dir (model.Name o)) outs) ++ fs s)%list.
Proof.
  unfold buildMounts, bind, liftR.
  destruct (inputMounts [] vols); intros H; [|discriminate].
  split; [exact (outputMounts_ok_trace _ _ _ _ _ _ _ H)|].
  exact (proj1 (outputMounts_ok_fs _ _ _ _ _ _ _ H)).
Qed.

Lemma outputMounts_dup_second env dir ms pre o1 mid o2 post s ms' s' :
  Filepath.Join2 dir (model.Name o1) = Filepath.Join2 dir (model.Name o2) ->
  outputMounts env dir ms (pre ++ o1 :: mid) s = (Ok ms', s') ->
  model.Name o2 <> "" -> model.Path o2 <> "" ->
  outputMounts env dir ms (pre ++ o1 :: mid ++ o2 :: post) s =
    (Err (EWrap ("mkdir " ++ Filepath.Join2 dir (model.Name o2)) (ENew "file exists")),
     {| fs := fs s';
        trace := (trace s' ++
                  [EvMkdir (Filepath.Join2 dir (model.Name o2)) outputDirPerm])%list |}).
Proof.
  intros Hd H Hn Hp.
  destruct (outputMounts_ok_fs _ _ _ _ _ _ _ H) as [Hfs _].
  assert (Hin : existsb (String.eqb (Filepath.Join2 dir (model.Name o2))) (fs s') = true).
  { apply existsb_exists. exists (Filepath.Join2 dir (model.Name o2)).
    split; [|apply String.eqb_refl].
    rewrite Hfs. apply in_or_app. left. rewrite <- in_rev, map_app.
    apply in_or_app. right. left. exact Hd. }
  replace (pre ++ o1 :: mid ++ o2 :: post)%list
    with ((pre ++ o1 :: mid) ++ o2 :: post)%list by (rewrite <- app_assoc; reflexivity).
  rewrite outputMounts_app, H. cbn [outputMounts].
  apply String.eqb_neq in Hn, Hp. rewrite Hn, Hp.
  cbv beta iota zeta delta [bind os_Mkdir]. rewrite Hin. reflexivity.
Qed.

Lemma RunShard_storage_prefix J env e shard dir fs0 ss vols :
  let spec := model.Spec (model.Job shard) in
  GetShardStorageSpec env shard = Ok ss ->
  ParallelPrepareStorage env (model.Contexts spec ++ ss)%list = Ok vols ->
  RunShard J env e shard dir fs0 =
    let '(r, s) :=
      (mounts <- buildMounts env dir vols (model.Outputs spec) ;;
       (if String.eqb (SKIP_IMAGE_PULL env) "" then
          emit (EvPullImage (model.Image (model.Docker spec))) ;;
          match PullImage env (model.Image (model.Docker spec)) with
          | Some err => fail (EWrap (pullImageMsg (model.Image (model.Docker spec))) err)
          | None => ret tt
          end
        else ret tt) ;;
       jsonJobSpec <- liftR (JSONMarshalWithMax env spec) ;;
       let containerConfig := jobContainerConfig J e shard jsonJobSpec in
       let hostConfig :=
         hostConfigOf mounts (ParseResourceUsageConfig env (model.Resources spec)) in
       emit EvSetupNetwork ;;
       '(containerConfig, hostConfig) <-
         liftR (setupNetworkForJob env containerConfig hostConfig) ;;
       let name := jobContainerName e shard in
       emit (EvContainerCreate containerConfig hostConfig name) ;;
       jobContainer <-
         liftR (match ContainerCreate env containerConfig hostConfig name with
                | Ok id => Ok id
                | Err err => Err (EWrap "failed to create container" err)
                end) ;;
       emit (EvContainerStart jobContainer) ;;
       (match ContainerStart env jobContainer with
        | Some containerStartError =>
            fail (EWrap (startErrorMsg containerStartError) containerStartError)
        | None => ret tt
        end) ;;
       emit (EvFollowLogs jobContainer) ;;
       let '(stdoutPipe, stderrPipe, logsErr) := FollowLogs env jobContainer in
       emit (EvContainerWait jobContainer) ;;
       let '(containerExitStatusCode, containerError) :=
         awaitResult (ContainerWait env jobContainer) in
       ret (WriteJobResults dir stdoutPipe stderrPipe containerExitStatusCode
              (Multierr.Combine [containerError; logsErr])))
      {| fs := fs0;
         trace := [EvGetShardStorageSpec; EvPrepareStorage (model.Contexts spec ++ ss)%list] |}
    in
    (match r with Ok res => Ran res | Err err => Failed err end,
     {| fs := fs s; trace := (trace s ++ cleanupEvents env e J shard)%list |}).
Proof.
  intros spec HG HP. rewrite RunShard_unfold. unfold RunShardBody.
  fold spec.
  cbv beta iota zeta delta [bind emit liftR ret fail].
  cbn [fs trace app]. rewrite HG, HP. reflexivity.
Qed.

(** A run whose steps all succeed makes its calls in the order of the code:
    storage resolution and preparation of the job's contexts followed by
    the shard's storage specs, one mkdir per output in the order of the
    outputs (of [filepath.Join(resultsDir, name)], with the output
    permissions), the image pull unless
    [SKIP_IMAGE_PULL] is set, network setup, creation of the container named
    [jobContainerName] with the configuration network setup returned, its
    start, log following and the wait; then the cleanup. The output
    directories are added to the host and stay there, and the run reports
    a result. *)
Theorem RunShard_success_steps J env e shard dir fs0 ss vols ms s1 jsonJobSpec
        cfg hc id :
  let spec := model.Spec (model.Job shard) in
  let image := model.Image (model.Docker spec) in
  GetShardStorageSpec env shard = Ok ss ->
  ParallelPrepareStorage env (model.Contexts spec ++ ss)%list = Ok vols ->
  buildMounts env dir vols (model.Outputs spec)
    {| fs := fs0;
       trace := [EvGetShardStorageSpec; EvPrepareStorage (model.Contexts spec ++ ss)%list] |}
    = (Ok ms, s1) ->
  (String.eqb (SKIP_IMAGE_PULL env) "" = true -> PullImage env image = None) ->
  JSONMarshalWithMax env spec = Ok jsonJobSpec ->
  setupNetworkForJob env (jobContainerConfig J e shard jsonJobSpec)
    (hostConfigOf ms (ParseResourceUsageConfig env (model.Resources spec)))
    = Ok (cfg, hc) ->
  ContainerCreate env cfg hc (jobContainerName e shard) = Ok id ->
  ContainerStart env id = None ->
  snd (RunShard J env e shard dir fs0) =
    {| fs := fs s1;
       trace := (trace s1 ++ pullEvents env image ++
                 [EvSetupNetwork; EvContainerCreate cfg hc (jobContainerName e shard);
                  EvContainerStart id; EvFollowLogs id; EvContainerWait id] ++
                 cleanupEvents env e J shard)%list |} /\
  trace s1 =
    ([EvGetShardStorageSpec; EvPrepareStorage (model.Contexts spec ++ ss)%list] ++
     map (fun o => EvMkdir (Filepath.Join2 dir (model.Name o)) outputDirPerm)
         (model.Outputs spec))%list /\
  fs s1 = (rev (map (fun o => Filepath.Join2 dir (model.Name o)) (model.Outputs spec)) ++
           fs0)%list /\
  (exists r, fst (RunShard J env e shard dir fs0) = Ran r).
Proof.
  intros spec image HG HP HB Hpull HJ HN HC HS.
  rewrite (RunShard_storage_prefix J env e shard dir fs0 ss vols HG HP).
  fold spec image.
  cbv beta iota zeta delta [bind emit liftR ret fail].
  rewrite HB. unfold pullEvents.
  destruct (String.eqb (SKIP_IMAGE_PULL env) "") eqn:Es;
    [rewrite (Hpull eq_refl)|];
    cbn [fs trace]; rewrite HJ, HN; cbn [fs trace]; rewrite HC, HS;
    destruct (FollowLogs env id) as [[so se] le];
    destruct (awaitResult (ContainerWait env id)) as [code ce];
    cbn [fst snd fs trace];
    (split; [rewrite <- !app_assoc; reflexivity|]);
    (destruct (buildMounts_ok_state _ _ _ _ _ _ _ HB) as [Ht Hf];
     split; [exact Ht|]; split; [exact Hf|]);
    eexists; reflexivity.
Qed.

(** Once the mounts are built, each later step that fails ends the run
    with its error and the cleanup, and nothing after it happens: a failed
    pull (only tried when [SKIP_IMAGE_PULL] is empty) reports the error
    wrapped in the message that quotes the image, a failed JSON encoding of
    the spec and a failed network setup report their error as is, and a
    failed create reports it wrapped in "failed to create container"; no
    container is started. The output directories made by the mount builder
    are left on the host in every case. *)
Theorem RunShard_failures_after_mounts J env e shard dir fs0 ss vols ms s1 :
  let spec := model.Spec (model.Job shard) in
  let image := model.Image (model.Docker spec) in
  let rr := ParseResourceUsageConfig env (model.Resources spec) in
  GetShardStorageSpec env shard = Ok ss ->
  ParallelPrepareStorage env (model.Contexts spec ++ ss)%list = Ok vols ->
  buildMounts env dir vols (model.Outputs spec)
    {| fs := fs0;
       trace := [EvGetShardStorageSpec; EvPrepareStorage (model.Contexts spec ++ ss)%list] |}
    = (Ok ms, s1) ->
  (forall err,
     String.eqb (SKIP_IMAGE_PULL env) "" = true -> PullImage env image = Some err ->
     RunShard J env e shard dir fs0 =
       (Failed (EWrap (pullImageMsg image) err),
        {| fs := fs s1;
           trace := (trace s1 ++ [EvPullImage image] ++
                     cleanupEvents env e J shard)%list |})) /\
  ((String.eqb (SKIP_IMAGE_PULL env) "" = true -> PullImage env image = None) ->
   (forall err, JSONMarshalWithMax env spec = Err err ->
      RunShard J env e shard dir fs0 =
        (Failed err,
         {| fs := fs s1;
            trace := (trace s1 ++ pullEvents env image ++
                      cleanupEvents env e J shard)%list |})) /\
   (forall jsonJobSpec err,
      JSONMarshalWithMax env spec = Ok jsonJobSpec ->
      setupNetworkForJob env (jobContainerConfig J e shard jsonJobSpec)
        (hostConfigOf ms rr) = Err err ->
      RunShard J env e shard dir fs0 =
        (Failed err,
         {| fs := fs s1;
            trace := (trace s1 ++ pullEvents env image ++ [EvSetupNetwork] ++
                      cleanupEvents env e J shard)%list |})) /\
   (forall jsonJobSpec cfg hc err,
      JSONMarshalWithMax env spec = Ok jsonJobSpec ->
      setupNetworkForJob env (jobContainerConfig J e shard jsonJobSpec)
        (hostConfigOf ms rr) = Ok (cfg, hc) ->
      ContainerCreate env cfg hc (jobContainerName e shard) = Err err ->
      RunShard J env e shard dir fs0 =
        (Failed (EWrap "failed to create container" err),
         {| fs := fs s1;
            trace := (trace s1 ++ pullEvents env image ++
                      [EvSetupNetwork; EvContainerCreate cfg hc (jobContainerName e shard)] ++
                      cleanupEvents env e J shard)%list |}))).
Proof.
  intros spec image rr HG HP HB.
  rewrite (RunShard_storage_prefix J env e shard dir fs0 ss vols HG HP).
  fold spec image rr.
  cbv beta iota zeta delta [bind emit liftR ret fail].
  rewrite HB. unfold pullEvents. split.
  - intros err Es Hp. rewrite Es, Hp. cbn [fs trace].
    rewrite <- !app_assoc. reflexivity.
  - intros Hpull.
    destruct (String.eqb (SKIP_IMAGE_PULL env) "") eqn:Es;
      [rewrite (Hpull eq_refl)|];
      cbn [fs trace];
      (split; [intros err HJ; rewrite HJ; cbn [fs trace];
               rewrite <- ?app_assoc; reflexivity|]);
      (split; [intros jsonJobSpec err HJ HN; rewrite HJ; fold rr; rewrite HN;
               cbn [fs trace]; rewrite <- !app_assoc; reflexivity|]);
      intros jsonJobSpec cfg hc err HJ HN HC; rewrite HJ; fold rr; rewrite HN;
      cbn [fs trace]; rewrite HC; cbn [fs trace]; rewrite <- !app_assoc;
      reflexivity.
Qed.

(** ** Output directories *)

Lemma outputMounts_same_dir_err env dir ms pre o1 mid o2 post s :
  Filepath.Join2 dir (model.Name o1) = Filepath.Join2 dir (model.Name o2) ->
  exists err, fst (outputMounts env dir ms (pre ++ o1 :: mid ++ o2 :: post) s) = Err err.
Proof.
  intros Hd.
  destruct (outputMounts env dir ms (pre ++ o1 :: mid ++ o2 :: post) s)
    as [[ms'|err] s'] eqn:H; [|eexists; reflexivity].
  exfalso. apply outputMounts_ok_fs in H as [_ [Hnd _]].
  rewrite map_app in Hnd. cbn [map] in Hnd. rewrite map_app in Hnd. cbn [map] in Hnd.
  apply NoDup_remove_2 in Hnd. apply Hnd.
  rewrite in_app_iff, in_app_iff. right. right. left. symmetry. exact Hd.
Qed.

(** A successful pass of the output loop creates one directory per output,
    [filepath.Join(resultsDir, name)], adding it to the host: these
    directories are pairwise distinct and none of them existed before the
    loop, and every output had a non-empty name and path. *)
Theorem outputMounts_success_dirs env dir ms0 outs s ms s' :
  outputMounts env dir ms0 outs s = (Ok ms, s') ->
  let dirs := map (fun o => Filepath.Join2 dir (model.Name o)) outs in
  fs s' = (rev dirs ++ fs s)%list /\ NoDup dirs /\
  Forall (fun p => ~ In p (fs s)) dirs /\
  Forall (fun o => model.Name o <> "" /\ model.Path o <> "") outs.
Proof. exact (outputMounts_ok_fs env dir ms0 outs s ms s'). Qed.

(** Two outputs of a job whose names join to the same directory under the
    results directory (the same name, or names equal once cleaned, such as
    "outputs" and "./outputs") make the output loop fail. When the loop
    gets as far as the second of them (the outputs before it passed) and
    it has a name and a path, the failure is its mkdir meeting the
    directory the first one created: "mkdir <dir>: file exists". With the
    storage steps and the input mounts succeeding, the run reports that
    error. In every case the run fails and never creates or starts a
    container. *)
Theorem RunShard_duplicate_output_dir J env e shard dir fs0 pre o1 mid o2 post :
  model.Outputs (model.Spec (model.Job shard)) = (pre ++ o1 :: mid ++ o2 :: post)%list ->
  Filepath.Join2 dir (model.Name o1) = Filepath.Join2 dir (model.Name o2) ->
  (forall ms s, exists err,
     fst (outputMounts env dir ms (pre ++ o1 :: mid ++ o2 :: post) s) = Err err) /\
  (forall ms s ms' s',
     outputMounts env dir ms (pre ++ o1 :: mid) s = (Ok ms', s') ->
     model.Name o2 <> "" -> model.Path o2 <> "" ->
     outputMounts env dir ms (pre ++ o1 :: mid ++ o2 :: post) s =
       (Err (EWrap ("mkdir " ++ Filepath.Join2 dir (model.Name o2)) (ENew "file exists")),
        {| fs := fs s';
           trace := (trace s' ++
                     [EvMkdir (Filepath.Join2 dir (model.Name o2)) outputDirPerm])%list |})) /\
  (forall ss vols ms0,
     GetShardStorageSpec env shard = Ok ss ->
     ParallelPrepareStorage env
       (model.Contexts (model.Spec (model.Job shard)) ++ ss)%list = Ok vols ->
     inputMounts [] vols = Ok ms0 ->
     (exists ms' s',
        outputMounts env dir ms0 (pre ++ o1 :: mid)
          {| fs := fs0;
             trace := [EvGetShardStorageSpec;
                       EvPrepareStorage
                         (model.Contexts (model.Spec (model.Job shard)) ++ ss)%list] |}
        = (Ok ms', s')) ->
     model.Name o2 <> "" -> model.Path o2 <> "" ->
     fst (RunShard J env e shard dir fs0) =
       Failed (EWrap ("mkdir " ++ Filepath.Join2 dir (model.Name o2)) (ENew "file exists"))) /\
  (exists err, fst (RunShard J env e shard dir fs0) = Failed err) /\
  (forall ev, In ev (trace (snd (RunShard J env e shard dir fs0))) ->
     match ev with EvContainerCreate _ _ _ | EvContainerStart _ => False | _ => True end).
Proof.
  intros Hout Hd.
  assert (Hdup : forall ms s, exists err,
     fst (outputMounts env dir ms (pre ++ o1 :: mid ++ o2 :: post) s) = Err err)
    by (intros; apply outputMounts_same_dir_err; exact Hd).
  split; [exact Hdup|].
  split; [intros ms s ms' s' H Hn Hp; exact (outputMounts_dup_second _ _ _ _ _ _ _ _ _ _ _ Hd H Hn Hp)|].
  split.
  { intros ss vols ms0 HG HP HI [ms' [s' Hpre]] Hn Hp.
    rewrite (RunShard_storage_prefix J env e shard dir fs0 ss vols HG HP).
    cbv beta iota zeta delta [bind emit liftR ret fail buildMounts].
    rewrite HI, Hout, (outputMounts_dup_second _ _ _ _ _ _ _ _ _ _ _ Hd Hpre Hn Hp).
    reflexivity. }
  rewrite RunShard_unfold. unfold RunShardBody. red_m.
  destruct (GetShardStorageSpec env shard) as [ss|err] eqn:HG; red_m;
    [destruct (ParallelPrepareStorage env _) as [vols|err] eqn:HP; red_m|].
  1: unfold buildMounts; red_m; destruct (inputMounts [] vols) as [ms0|err] eqn:HI; red_m.
  1: rewrite Hout;
     destruct (outputMounts env dir ms0 (pre ++ o1 :: mid ++ o2 :: post) _)
       as [[ms|err] s1] eqn:HO;
     [match type of HO with
      | outputMounts _ _ _ _ ?st = _ =>
          destruct (Hdup ms0 st) as [err H]; rewrite HO in H; discriminate
      end|];
     apply outputMounts_trace in HO as [evs [Ht Hf]]; cbn [fs trace] in Ht;
     rewrite Ht.
  all: split; [eexists; reflexivity|].
  all: intros ev Hin; cbn [snd trace] in Hin; rewrite ?in_app_iff in Hin.
  all: destruct ev; try exact I; exfalso.
  all: repeat match goal with
         | H : _ \/ _ |- _ => destruct H as [H|H]
         end.
  all: try (cbn [In] in Hin; intuition discriminate).
  all: try (pose proof (in_mkdirs _ _ Hf Hin); discriminate).
  all: unfold cleanupEvents in Hin; destruct (ShouldKeepStack env); cbn [In] in Hin;
       intuition discriminate.
Qed.

(** ** Cancellation and the executor-wide cleanup *)

(** [CancelShard] removes, on the caller's context and whatever
    [ShouldKeepStack] says, the objects carrying the job label with the
    value the container of the shard is created with, the same label the
    end-of-run cleanup removes, and returns the removal error as is.
    [cleanupAll] removes the objects carrying the executor label, which the
    container also carries, on a background context; it does nothing when
    the stack is kept, never fails, and a removal error only turns its log
    entry into an error entry. Neither touches the host directories. *)
Theorem CancelShard_cleanupAll_targets J env ctx e shard jsonJobSpec s :
  let v := labelJobValue J e shard in
  let labels := container.Labels (jobContainerConfig J e shard jsonJobSpec) in
  CancelShard J env ctx e shard s =
    (Ok (RemoveObjectsWithLabel env ctx labelJobName v),
     {| fs := fs s;
        trace := (trace s ++ [EvRemoveObjectsWithLabel ctx labelJobName v])%list |}) /\
  In (labelJobName, v) labels /\
  (ShouldKeepStack env = false ->
   In (EvRemoveObjectsWithLabel (WithTimeout Background 60) labelJobName v)
      (cleanupEvents env e J shard)) /\
  In (labelExecutorName, ID e) labels /\
  cleanupAll env e s =
    (Ok tt,
     {| fs := fs s;
        trace := (trace s ++
                  if ShouldKeepStack env then []
                  else [EvRemoveObjectsWithLabel Background labelExecutorName (ID e);
                        EvLog (match RemoveObjectsWithLabel env Background
                                       labelExecutorName (ID e) with
                               | None => DebugLevel
                               | Some _ => ErrorLevel
                               end) "Cleaned up all Docker resources"])%list |}).
Proof.
  intros v labels.
  split; [reflexivity|].
  split; [right; left; reflexivity|].
  split; [intros Hk; unfold cleanupEvents; rewrite Hk; left; reflexivity|].
  split; [left; reflexivity|].
  unfold cleanupAll. destruct (ShouldKeepStack env); red_m.
  - destruct s as [f t]. cbn. rewrite app_nil_r. reflexivity.
  - rewrite <- app_assoc. reflexivity.
Qed.

(** ** The caller formatter *)

Lemma prefix_app p r : String.prefix p (p ++ r) = true.
Proof.
  induction p as [|c p IH]; [destruct r; reflexivity|].
  cbn. destruct (ascii_dec c c) as [_|n]; [exact IH|contradiction n; reflexivity].
Qed.

Lemma substring_0_all r m : (String.length r <= m)%nat -> substring 0 m r = r.
Proof.
  revert m; induction r as [|c r IH]; intros m Hm; [destruct m; reflexivity|].
  destruct m as [|m]; cbn in Hm; [lia|].
  cbn. rewrite IH by lia. reflexivity.
Qed.

Lemma substring_after p r m :
  substring (String.length p) m (p ++ r) = substring 0 m r.
Proof. induction p as [|c p IH]; [reflexivity|]. exact IH. Qed.

Lemma length_append_str a b :
  String.length (a ++ b) = (String.length a + String.length b)%nat.
Proof. induction a as [|c a IH]; [reflexivity|]. cbn. rewrite IH. reflexivity. Qed.

Lemma append_assoc_str a b c : ((a ++ b) ++ c)%string = (a ++ b ++ c)%string.
Proof. induction a as [|x a IH]; [reflexivity|]. cbn. rewrite IH. reflexivity. Qed.

Lemma append_nil_str a : (a ++ "")%string = a.
Proof. induction a as [|c a IH]; [reflexivity|]. cbn. rewrite IH. reflexivity. Qed.

Lemma TrimPrefix_app p r : logger.TrimPrefix (p ++ r) p = r.
Proof.
  unfold logger.TrimPrefix, logger.HasPrefix. rewrite prefix_app.
  rewrite substring_after. apply substring_0_all.
  rewrite length_append_str. lia.
Qed.

Lemma string_of_uint_no_colon d :
  ~ In ":"%char (list_ascii_of_string (NilEmpty.string_of_uint d)).
Proof.
  induction d; cbn; [intros []|..];
    intros [H|H]; first [discriminate | contradiction].
Qed.

Lemma Itoa_no_colon z : ~ In ":"%char (list_ascii_of_string (logger.Itoa z)).
Proof.
  unfold logger.Itoa. destruct z as [|p|p]; cbn [Sprint_int].
  - cbn. intros [H|[]]. discriminate.
  - unfold NilZero.string_of_uint.
    destruct (Pos.to_uint p); try (cbn; intros [H|[]]; discriminate);
      apply string_of_uint_no_colon.
  - cbn [list_ascii_of_string append]. intros [H|H]; [discriminate|].
    revert H. unfold NilZero.string_of_uint.
    destruct (Pos.to_uint p); try (cbn; intros [H|[]]; discriminate);
      apply string_of_uint_no_colon.
Qed.

(** The caller of an entry in a file under [prefix/] is printed as the
    path relative to [prefix], then a colon and the line; a file outside
    [prefix/] (another module, the Go root) keeps its full path. An empty
    prefix strips only the leading slash of an absolute path. *)
Theorem marshalCaller_trim prefix rel file line :
  logger.marshalCaller prefix (prefix ++ "/" ++ rel) line =
    (rel ++ ":" ++ logger.Itoa line)%string /\
  (logger.HasPrefix file (prefix ++ "/") = false ->
   logger.marshalCaller prefix file line = (file ++ ":" ++ logger.Itoa line)%string).
Proof.
  split.
  - unfold logger.marshalCaller. rewrite <- (append_assoc_str prefix "/" rel), TrimPrefix_app. reflexivity.
  - intros H. unfold logger.marshalCaller, logger.TrimPrefix. rewrite H. reflexivity.
Qed.

(** The printed caller determines the line (for non-negative lines) and the
    path left after trimming: the text after the last colon is the line,
    since the decimal line has no colon, whatever colons the path holds. *)
Theorem marshalCaller_injective prefix prefix' file file' line line' :
  0 <= line -> 0 <= line' ->
  logger.marshalCaller prefix file line = logger.marshalCaller prefix' file' line' ->
  logger.TrimPrefix file (prefix ++ "/") = logger.TrimPrefix file' (prefix' ++ "/") /\
  line = line'.
Proof.
  intros Hl Hl' H. unfold logger.marshalCaller in H.
  apply (f_equal list_ascii_of_string) in H.
  rewrite !list_ascii_of_string_app in H. cbn [list_ascii_of_string app] in H.
  destruct (split_last _ _ _ _ _ (Itoa_no_colon line) (Itoa_no_colon line') H)
    as [E1 E2].
  apply list_ascii_of_string_inj in E1, E2.
  split; [exact E1|]. apply Sprint_int_inj; assumption.
Qed.

(** ** The node ID field *)

Lemma substring_0_length k s :
  (k <= String.length s)%nat -> String.length (substring 0 k s) = k.
Proof.
  revert k; induction s as [|c s IH]; intros k Hk; cbn in Hk.
  - assert (k = 0%nat) by lia. subst. reflexivity.
  - destruct k as [|k]; [reflexivity|]. cbn. rewrite IH by lia. reflexivity.
Qed.

Lemma substring_0_prefix k s : String.prefix (substring 0 k s) s = true.
Proof.
  revert k; induction s as [|c s IH]; intros k; destruct k as [|k]; try reflexivity.
  cbn. destruct (ascii_dec c c) as [_|n]; [apply IH|contradiction n; reflexivity].
Qed.

(** With [model.ShortIDLength] at most 9 the node ID field is always added:
    an ID of at most 8 bytes as is, a longer one cut to its first
    [ShortIDLength] bytes, so the field is a prefix of the ID; with a length
    of at most 8 the cut is stable (the field value, used as a node ID,
    gives itself). With a larger [ShortIDLength], an ID longer than 8 bytes
    but shorter than [ShortIDLength] makes the slice panic. *)
Theorem loggerWithNodeID_cut k log nodeID :
  ((k <= 9)%nat ->
   exists v,
     logger.loggerWithNodeID k log nodeID =
       Some (log ++ [(logger.nodeIDFieldName, v)])%list /\
     logger.HasPrefix nodeID v = true /\
     ((String.length nodeID <= 8)%nat -> v = nodeID) /\
     ((8 < String.length nodeID)%nat -> String.length v = k) /\
     ((k <= 8)%nat -> forall log',
        logger.loggerWithNodeID k log' v =
          Some (log' ++ [(logger.nodeIDFieldName, v)])%list)) /\
  ((8 < String.length nodeID)%nat -> (String.length nodeID < k)%nat ->
   logger.loggerWithNodeID k log nodeID = None).
Proof.
  unfold logger.loggerWithNodeID, logger.HasPrefix. split.
  - intros Hk. destruct (Nat.ltb_spec 8 (String.length nodeID)) as [Hn|Hn].
    + destruct (Nat.leb_spec k (String.length nodeID)) as [Hk'|Hk']; [|lia].
      exists (substring 0 k nodeID). rewrite substring_0_length by lia.
      split; [reflexivity|]. split; [apply substring_0_prefix|].
      split; [lia|]. split; [reflexivity|].
      intros Hk8 log'. destruct (Nat.ltb_spec 8 k); [lia|]. reflexivity.
    + exists nodeID. split; [reflexivity|].
      split; [rewrite <- (append_nil_str nodeID) at 2; apply prefix_app|].
      split; [reflexivity|]. split; [lia|].
      intros _ log'. destruct (Nat.ltb_spec 8 (String.length nodeID)); [lia|].
      reflexivity.
  - intros Hn Hk. destruct (Nat.ltb_spec 8 (String.length nodeID)); [|lia].
    destruct (Nat.leb_spec k (String.length nodeID)); [lia|]. reflexivity.
Qed.

(** ** Scanning a log stream *)

#[local] Arguments bufio.MaxScanTokenSize : simpl never.

Lemma IndexByte_none l c : ~ In c l -> bufio.IndexByte l c = None.
Proof.
  induction l as [|a l IH]; intros H; [reflexivity|]. cbn.
  destruct (Ascii.eqb_spec a c) as [E|E];
    [subst; exfalso; apply H; left; reflexivity|].
  rewrite IH; [reflexivity|]. intros Hin. apply H. right. exact Hin.
Qed.

Lemma IndexByte_app l r c :
  ~ In c l -> bufio.IndexByte (l ++ c :: r) c = Some (length l).
Proof.
  induction l as [|a l IH]; intros H; cbn; [rewrite Ascii.eqb_refl; reflexivity|].
  destruct (Ascii.eqb_spec a c) as [E|E];
    [subst; exfalso; apply H; left; reflexivity|].
  rewrite IH; [reflexivity|]. intros Hin. apply H. right. exact Hin.
Qed.

Lemma not_in_app_l (c : ascii) l m : ~ In c (l ++ m) -> ~ In c l.
Proof. intros H Hin. apply H. apply in_or_app. left. exact Hin. Qed.

(** The bytes read so far start with a line or lie inside it. *)
Lemma split_window (w i l R : list ascii) :
  (w ++ i = l ++ bufio.nl :: R)%list ->
  (exists m, w = (l ++ bufio.nl :: m)%list /\ R = (m ++ i)%list) \/
  (exists m, l = (w ++ m)%list /\ i = (m ++ bufio.nl :: R)%list).
Proof.
  intros H. destruct (app_eq_app _ _ _ _ H) as [m [[Hw Hm]|[Hl Hi]]].
  - destruct m as [|x m].
    + right. exists []. rewrite app_nil_r in Hw. subst w. split; [rewrite app_nil_r; reflexivity|].
      exact (eq_sym Hm).
    + left. injection Hm as Hx HR. subst x. exists m. split; assumption.
  - right. exists m. split; [exact Hl|exact Hi].
Qed.

Lemma MaxScanTokenSize_pos : (0 < bufio.MaxScanTokenSize)%nat.
Proof. apply Nat.ltb_lt. reflexivity. Qed.

Lemma read_spec s :
  bufio.err s = None -> (bufio.end_ s < bufio.buf s)%nat ->
  bufio.final (bufio.read s) = bufio.final s /\
  bufio.buf (bufio.read s) = bufio.buf s /\
  (bufio.end_ (bufio.read s) <= bufio.buf (bufio.read s))%nat /\
  ((bufio.input s = [] /\ bufio.err (bufio.read s) = Some (finalErr (bufio.final s)) /\
    bufio.window (bufio.read s) = bufio.window s /\ bufio.input (bufio.read s) = []) \/
   (exists n, (0 < n <= length (bufio.input s))%nat /\
      bufio.err (bufio.read s) = None /\
      bufio.window (bufio.read s) = (bufio.window s ++ firstn n (bufio.input s))%list /\
      bufio.input (bufio.read s) = skipn n (bufio.input s))).
Proof.
  intros He Hlt. unfold bufio.read.
  destruct (bufio.input s) as [|x r] eqn:Hi.
  - unfold bufio.setErr. rewrite He. cbn.
    split; [reflexivity|]. split; [reflexivity|]. split; [unfold bufio.end_ in *; cbn; lia|].
    left. repeat split; try (destruct (bufio.final s); reflexivity); try exact Hi.
  - set (n := Nat.min (bufio.buf s - bufio.end_ s) (length (x :: r))).
    assert (Hn : (0 < n <= length (x :: r))%nat) by (subst n; cbn [length]; lia).
    destruct (Nat.eqb_spec n 0) as [E|E]; [lia|].
    cbn [bufio.final bufio.buf bufio.err bufio.window bufio.input].
    split; [reflexivity|]. split; [reflexivity|].
    split.
    { unfold bufio.end_ in *. cbn [bufio.start bufio.window bufio.buf].
      rewrite length_app, length_firstn. subst n. lia. }
    right. exists n. repeat split; try lia; assumption.
Qed.

Lemma grow_read s :
  bufio.err s = None -> (bufio.end_ s <= bufio.buf s)%nat ->
  (bufio.buf s <= bufio.MaxScanTokenSize)%nat ->
  (bufio.end_ s = bufio.buf s -> bufio.start s = 0%nat) ->
  (length (bufio.window s) < bufio.MaxScanTokenSize)%nat ->
  exists s',
    (if (bufio.end_ s =? bufio.buf s)%nat then
       if (bufio.MaxScanTokenSize <=? bufio.buf s)%nat then
         bufio.Stop (bufio.setErr s bufio.ErrTooLong)
       else
         let newSize := (bufio.buf s * 2)%nat in
         let newSize := if (newSize =? 0)%nat then bufio.startBufSize else newSize in
         let newSize := Nat.min newSize bufio.MaxScanTokenSize in
         bufio.Again (bufio.read {| bufio.buf := newSize; bufio.start := 0;
                                    bufio.window := bufio.window s; bufio.err := bufio.err s;
                                    bufio.input := bufio.input s; bufio.final := bufio.final s |})
     else bufio.Again (bufio.read s)) = bufio.Again s' /\
    bufio.final s' = bufio.final s /\
    (bufio.end_ s' <= bufio.buf s')%nat /\
    (bufio.buf s' <= bufio.MaxScanTokenSize)%nat /\
    ((bufio.input s = [] /\ bufio.err s' = Some (finalErr (bufio.final s)) /\
      bufio.window s' = bufio.window s /\ bufio.input s' = []) \/
     (exists n, (0 < n <= length (bufio.input s))%nat /\ bufio.err s' = None /\
        bufio.window s' = (bufio.window s ++ firstn n (bufio.input s))%list /\
        bufio.input s' = skipn n (bufio.input s))).
Proof.
  intros He Hend Hbuf H0 Hw.
  destruct (Nat.eqb_spec (bufio.end_ s) (bufio.buf s)) as [E|E].
  - pose proof (H0 E) as Hs. unfold bufio.end_ in E. rewrite Hs in E. cbn in E.
    destruct (Nat.leb_spec bufio.MaxScanTokenSize (bufio.buf s)) as [L|L]; [lia|].
    cbv zeta.
    set (ns := Nat.min (if (bufio.buf s * 2 =? 0)%nat then bufio.startBufSize
                        else (bufio.buf s * 2)%nat) bufio.MaxScanTokenSize).
    assert (Hns : (length (bufio.window s) < ns <= bufio.MaxScanTokenSize)%nat).
    { subst ns. destruct (Nat.eqb_spec (bufio.buf s * 2) 0);
        unfold bufio.startBufSize; lia. }
    set (g := {| bufio.buf := ns; bufio.start := 0; bufio.window := bufio.window s;
                 bufio.err := bufio.err s; bufio.input := bufio.input s;
                 bufio.final := bufio.final s |}).
    destruct (read_spec g) as [Hf [Hb [He' Hcase]]];
      [exact He | unfold bufio.end_, g; cbn [bufio.start bufio.window bufio.buf]; lia|].
    exists (bufio.read g). split; [reflexivity|].
    split; [exact Hf|]. split; [exact He'|].
    split; [rewrite Hb; unfold g; cbn [bufio.buf]; lia|].
    exact Hcase.
  - destruct (read_spec s) as [Hf [Hb [He' Hcase]]]; [exact He|lia|].
    exists (bufio.read s). split; [reflexivity|].
    split; [exact Hf|]. split; [exact He'|]. split; [lia|]. exact Hcase.
Qed.

Lemma refill_again s :
  bufio.err s = None -> (bufio.end_ s <= bufio.buf s)%nat ->
  (bufio.buf s <= bufio.MaxScanTokenSize)%nat ->
  (length (bufio.window s) < bufio.MaxScanTokenSize)%nat ->
  exists s', bufio.refill s = bufio.Again s' /\
    bufio.final s' = bufio.final s /\
    (bufio.end_ s' <= bufio.buf s')%nat /\
    (bufio.buf s' <= bufio.MaxScanTokenSize)%nat /\
    ((bufio.input s = [] /\ bufio.err s' = Some (finalErr (bufio.final s)) /\
      bufio.window s' = bufio.window s /\ bufio.input s' = []) \/
     (exists n, (0 < n <= length (bufio.input s))%nat /\ bufio.err s' = None /\
        bufio.window s' = (bufio.window s ++ firstn n (bufio.input s))%list /\
        bufio.input s' = skipn n (bufio.input s))).
Proof.
  intros He Hend Hbuf Hw. unfold bufio.refill. rewrite He.
  destruct ((0 <? bufio.start s)%nat &&
            ((bufio.end_ s =? bufio.buf s)%nat || (bufio.buf s / 2 <? bufio.start s)%nat))
    eqn:Hc.
  - destruct (grow_read {| bufio.buf := bufio.buf s; bufio.start := 0;
                           bufio.window := bufio.window s; bufio.err := None;
                           bufio.input := bufio.input s; bufio.final := bufio.final s |})
      as [s' Hs'];
      [reflexivity | unfold bufio.end_ in *; cbn [bufio.start bufio.window bufio.buf]; lia
      | exact Hbuf | reflexivity | exact Hw |].
    exists s'. exact Hs'.
  - destruct (grow_read s) as [s' Hs']; try assumption.
    + intros E. apply andb_false_iff in Hc as [Hc|Hc].
      * apply Nat.ltb_ge in Hc. lia.
      * apply orb_false_iff in Hc as [Hc _]. apply Nat.eqb_neq in Hc. contradiction.
    + exists s'. exact Hs'.
Qed.

Lemma refill_toolong s :
  bufio.err s = None -> (bufio.end_ s <= bufio.buf s)%nat ->
  (bufio.buf s <= bufio.MaxScanTokenSize)%nat ->
  length (bufio.window s) = bufio.MaxScanTokenSize ->
  exists s', bufio.refill s = bufio.Stop s' /\ bufio.err s' = Some bufio.ErrTooLong.
Proof.
  intros He Hend Hbuf Hw. unfold bufio.end_ in Hend.
  assert (Hs : bufio.start s = 0%nat) by lia.
  unfold bufio.refill. rewrite He, Hs. cbn [Nat.ltb Nat.leb andb].
  unfold bufio.end_. rewrite Hs, Hw. cbn [Nat.add].
  assert (Hb : bufio.buf s = bufio.MaxScanTokenSize) by lia. rewrite Hb.
  rewrite Nat.eqb_refl, Nat.leb_refl.
  eexists. split; [reflexivity|]. unfold bufio.setErr. rewrite He. reflexivity.
Qed.

(** A pass over a window without a newline, before any error, finds no
    token and goes on to refill. *)
Lemma scanIter_noToken s :
  bufio.err s = None -> ~ In bufio.nl (bufio.window s) ->
  exists s1, bufio.scanIter s = bufio.refill s1 /\
    bufio.buf s1 = bufio.buf s /\ bufio.start s1 = bufio.start s /\
    bufio.window s1 = bufio.window s /\ bufio.err s1 = None /\
    bufio.input s1 = bufio.input s /\ bufio.final s1 = bufio.final s.
Proof.
  intros He Hw. unfold bufio.scanIter. rewrite He.
  destruct (bufio.window s) as [|c w] eqn:Hws.
  - exists s. cbn. rewrite Hws. repeat split; assumption.
  - cbn [length Nat.ltb Nat.leb orb]. unfold bufio.ScanLines. cbn [andb].
    rewrite (IndexByte_none _ _ Hw). cbn [Nat.ltb Nat.leb].
    exists (bufio.advance s 0). split; [reflexivity|].
    unfold bufio.advance. cbn. rewrite Hws. repeat split; try assumption; lia.
Qed.

Lemma Scan_line f s l R :
  scanInv s -> (bufio.window s ++ bufio.input s = l ++ bufio.nl :: R)%list ->
  ~ In bufio.nl l -> (length l < bufio.MaxScanTokenSize)%nat ->
  (S (length (bufio.input s)) <= f)%nat ->
  exists s', bufio.Scan f s = Some (Some (bufio.dropCR l), s') /\ scanInv s' /\
    (bufio.window s' ++ bufio.input s' = R)%list /\ bufio.final s' = bufio.final s.
Proof.
  revert s. induction f as [|f IH]; intros s [Hend [Hbuf He]] Hwi Hl Hlen Hf; [lia|].
  cbn [bufio.Scan].
  destruct (split_window _ _ _ _ Hwi) as [[m [Hw HR]]|[m [Hl' Hi]]].
  - unfold bufio.scanIter. rewrite He, Hw.
    rewrite length_app. cbn [length].
    replace ((0 <? length l + S (length m))%nat) with true by (symmetry; apply Nat.ltb_lt; lia).
    cbn [orb]. unfold bufio.ScanLines. cbn [andb]. rewrite (IndexByte_app _ _ _ Hl).
    rewrite firstn_app, Nat.sub_diag, firstn_all. cbn [firstn]. rewrite app_nil_r.
    replace ((length l + S (length m) <? S (length l))%nat) with false
      by (symmetry; apply Nat.ltb_ge; lia).
    eexists. split; [reflexivity|].
    unfold bufio.advance. cbn [bufio.window bufio.input bufio.final bufio.err bufio.buf bufio.start].
    rewrite Hw. replace (S (length l)) with (length (l ++ [bufio.nl])) by (rewrite length_app; cbn; lia).
    replace (l ++ bufio.nl :: m)%list with ((l ++ [bufio.nl]) ++ m)%list
      by (rewrite <- app_assoc; reflexivity).
    rewrite skipn_app, skipn_all, Nat.sub_diag. cbn [skipn app].
    split; [|split; [symmetry; exact HR|reflexivity]].
    unfold scanInv, bufio.end_ in *. cbn [bufio.start bufio.window bufio.buf bufio.err].
    rewrite Hw in Hend.
    rewrite !length_app in Hend |- *. cbn [length] in *. repeat split; try lia; exact He.
  - assert (Hnw : ~ In bufio.nl (bufio.window s)) by (rewrite Hl' in Hl; exact (not_in_app_l _ _ _ Hl)).
    destruct (scanIter_noToken s He Hnw) as [s1 [Hit [Hb1 [Hs1 [Hw1 [He1 [Hi1 Hf1]]]]]]].
    assert (Hwl : (length (bufio.window s) <= length l)%nat) by (rewrite Hl', length_app; lia).
    destruct (refill_again s1) as [s' [Hr [Hf' [Hend' [Hbuf' Hcase]]]]];
      [exact He1 | unfold bufio.end_; rewrite Hs1, Hw1, Hb1; exact Hend
      | rewrite Hb1; exact Hbuf | rewrite Hw1; lia |].
    rewrite Hit, Hr.
    destruct Hcase as [[Hi0 _]|[n [Hn [He' [Hw' Hi']]]]];
      [rewrite Hi1, Hi in Hi0; destruct m; discriminate|].
    rewrite Hi1 in Hn, Hw', Hi'. rewrite Hw1 in Hw'.
    destruct (IH s') as [s'' [H1 [H2 [H3 H4]]]].
    + split; [exact Hend'|]. split; [exact Hbuf'|exact He'].
    + rewrite Hw', Hi', <- app_assoc, firstn_skipn. exact Hwi.
    + exact Hl.
    + exact Hlen.
    + rewrite Hi', length_skipn. lia.
    + exists s''. split; [exact H1|]. split; [exact H2|]. split; [exact H3|].
      rewrite H4, Hf', Hf1. reflexivity.
Qed.

Lemma Scan_finish f s :
  bufio.err s <> None -> bufio.window s = [] -> (1 <= f)%nat ->
  exists s', bufio.Scan f s = Some (None, s') /\ bufio.err s' = bufio.err s.
Proof.
  intros He Hw Hf. destruct f as [|f]; [lia|]. cbn [bufio.Scan].
  unfold bufio.scanIter. destruct (bufio.err s) as [e|] eqn:Hes; [|contradiction].
  rewrite Hw. cbn. unfold bufio.refill. cbn. rewrite Hes.
  eexists. split; [reflexivity|]. reflexivity.
Qed.

Lemma Scan_tail f s T :
  scanInv s -> (bufio.window s ++ bufio.input s)%list = T ->
  ~ In bufio.nl T -> (length T < bufio.MaxScanTokenSize)%nat -> T <> [] ->
  (S (S (length (bufio.input s))) <= f)%nat ->
  exists s', bufio.Scan f s = Some (Some (bufio.dropCR T), s') /\
    bufio.err s' = Some (finalErr (bufio.final s)) /\ bufio.window s' = [].
Proof.
  revert s. induction f as [|f IH]; intros s [Hend [Hbuf He]] Hwi Hl Hlen Hne Hf; [lia|].
  cbn [bufio.Scan].
  assert (Hnw : ~ In bufio.nl (bufio.window s)) by (rewrite <- Hwi in Hl; exact (not_in_app_l _ _ _ Hl)).
  destruct (scanIter_noToken s He Hnw) as [s1 [Hit [Hb1 [Hs1 [Hw1 [He1 [Hi1 Hf1]]]]]]].
  assert (Hwl : (length (bufio.window s) <= length T)%nat) by (rewrite <- Hwi, length_app; lia).
  destruct (refill_again s1) as [s' [Hr [Hf' [Hend' [Hbuf' Hcase]]]]];
    [exact He1 | unfold bufio.end_; rewrite Hs1, Hw1, Hb1; exact Hend
    | rewrite Hb1; exact Hbuf | rewrite Hw1; lia |].
  rewrite Hit, Hr. rewrite Hi1, Hw1 in Hcase.
  destruct Hcase as [[Hi0 [He' [Hw' Hi']]]|[n [Hn [He' [Hw' Hi']]]]].
  - rewrite Hi0, app_nil_r in Hwi. rewrite Hwi in Hw'.
    destruct f as [|f]; [rewrite Hi0 in Hf; cbn in Hf; lia|]. cbn [bufio.Scan].
    unfold bufio.scanIter. rewrite He', Hw'. unfold bufio.ScanLines.
    destruct T as [|t T']; [contradiction|]. cbn [length orb andb Nat.eqb].
    rewrite (IndexByte_none _ _ Hl).
    rewrite Nat.ltb_irrefl.
    eexists. split; [reflexivity|]. cbn. rewrite Hw'.
    rewrite skipn_all. split; [|reflexivity]. rewrite He', Hf1. reflexivity.
  - destruct (IH s') as [s'' [H1 [H2 H3]]].
    + split; [exact Hend'|]. split; [exact Hbuf'|exact He'].
    + rewrite Hw', Hi', <- app_assoc, firstn_skipn. exact Hwi.
    + exact Hl.
    + exact Hlen.
    + exact Hne.
    + rewrite Hi', length_skipn. lia.
    + exists s''. split; [exact H1|]. rewrite H2, Hf', Hf1. split; [reflexivity|exact H3].
Qed.

Lemma Scan_empty f s :
  scanInv s -> bufio.window s = [] -> bufio.input s = [] -> (2 <= f)%nat ->
  exists s', bufio.Scan f s = Some (None, s') /\
    bufio.err s' = Some (finalErr (bufio.final s)).
Proof.
  intros [Hend [Hbuf He]] Hw Hi Hf. destruct f as [|f]; [lia|]. cbn [bufio.Scan].
  assert (Hnw : ~ In bufio.nl (bufio.window s)) by (rewrite Hw; intros []).
  destruct (scanIter_noToken s He Hnw) as [s1 [Hit [Hb1 [Hs1 [Hw1 [He1 [Hi1 Hf1]]]]]]].
  destruct (refill_again s1) as [s' [Hr [Hf' [Hend' [Hbuf' Hcase]]]]];
    [exact He1 | unfold bufio.end_; rewrite Hs1, Hw1, Hb1; exact Hend
    | rewrite Hb1; exact Hbuf | rewrite Hw1, Hw; exact MaxScanTokenSize_pos |].
  rewrite Hit, Hr. rewrite Hi1, Hw1 in Hcase.
  destruct Hcase as [[_ [He' [Hw' _]]]|[n [Hn _]]]; [|rewrite Hi in Hn; cbn in Hn; lia].
  destruct (Scan_finish f s') as [s'' [H1 H2]];
    [rewrite He'; discriminate | rewrite Hw', Hw; reflexivity | lia |].
  exists s''. split; [exact H1|]. rewrite H2, He', Hf1. reflexivity.
Qed.

Lemma Scan_toolong f s X :
  scanInv s -> (bufio.window s ++ bufio.input s)%list = X ->
  (bufio.MaxScanTokenSize <= length X)%nat ->
  ~ In bufio.nl (firstn bufio.MaxScanTokenSize X) ->
  (S (length (bufio.input s)) <= f)%nat ->
  exists s', bufio.Scan f s = Some (None, s') /\ bufio.err s' = Some bufio.ErrTooLong.
Proof.
  revert s. induction f as [|f IH]; intros s [Hend [Hbuf He]] Hwi HX Hl Hf; [lia|].
  cbn [bufio.Scan].
  assert (HwM : (length (bufio.window s) <= bufio.MaxScanTokenSize)%nat)
    by (unfold bufio.end_ in Hend; lia).
  assert (Hnw : ~ In bufio.nl (bufio.window s)).
  { intros Hin. apply Hl. rewrite <- Hwi, firstn_app.
    apply in_or_app. left. rewrite firstn_all2 by exact HwM. exact Hin. }
  destruct (scanIter_noToken s He Hnw) as [s1 [Hit [Hb1 [Hs1 [Hw1 [He1 [Hi1 Hf1]]]]]]].
  rewrite Hit.
  destruct (Nat.eq_dec (length (bufio.window s)) bufio.MaxScanTokenSize) as [EM|NM].
  - destruct (refill_toolong s1) as [s' [Hr He']];
      [exact He1 | unfold bufio.end_; rewrite Hs1, Hw1, Hb1; exact Hend
      | rewrite Hb1; exact Hbuf | rewrite Hw1; exact EM |].
    rewrite Hr. exists s'. split; [reflexivity|exact He'].
  - destruct (refill_again s1) as [s' [Hr [Hf' [Hend' [Hbuf' Hcase]]]]];
      [exact He1 | unfold bufio.end_; rewrite Hs1, Hw1, Hb1; exact Hend
      | rewrite Hb1; exact Hbuf | rewrite Hw1; lia |].
    rewrite Hr. rewrite Hi1, Hw1 in Hcase.
    destruct Hcase as [[Hi0 _]|[n [Hn [He' [Hw' Hi']]]]].
    + exfalso. rewrite Hi0, app_nil_r in Hwi. rewrite <- Hwi in HX. lia.
    + destruct (IH s') as [s'' [H1 H2]].
      * split; [exact Hend'|]. split; [exact Hbuf'|exact He'].
      * rewrite Hw', Hi', <- app_assoc, firstn_skipn. exact Hwi.
      * exact HX.
      * exact Hl.
      * rewrite Hi', length_skipn. lia.
      * exists s''. split; [exact H1|exact H2].
Qed.

Lemma finalEntries_Err s fin :
  bufio.err s = Some (finalErr fin) ->
  match bufio.Err s with
  | None => []
  | Some e => [(ErrorLevel, Some e, "error consuming log")]
  end = finalEntries fin.
Proof.
  intros H. unfold bufio.Err. rewrite H. destruct fin; reflexivity.
Qed.

Lemma lineBytes_cons l lines :
  lineBytes (l :: lines) = (l ++ bufio.nl :: lineBytes lines)%list.
Proof. unfold lineBytes. cbn [map concat]. rewrite <- app_assoc. reflexivity. Qed.

Lemma logLines_lines lines T f s :
  scanInv s -> (bufio.window s ++ bufio.input s = lineBytes lines ++ T)%list ->
  Forall (fun l => ~ In bufio.nl l /\ (length l < bufio.MaxScanTokenSize)%nat) lines ->
  ~ In bufio.nl T -> (length T < bufio.MaxScanTokenSize)%nat ->
  (length (bufio.window s ++ bufio.input s) + 2 <= f)%nat ->
  logger.logLines f s =
    Some (map debugEntry (lines ++ match T with [] => [] | _ => [T] end) ++
          finalEntries (bufio.final s))%list.
Proof.
  revert f s. induction lines as [|l lines IH]; intros f s Hinv Hwi Hok HT HTl Hf.
  - cbn [app]. unfold lineBytes in Hwi. cbn [map concat app] in Hwi.
    destruct f as [|f]; [lia|]. cbn [logger.logLines].
    destruct T as [|t T'].
    + apply app_eq_nil in Hwi as [Hw Hi].
      destruct (Scan_empty (bufio.scanFuel s) s) as [s' [H1 H2]];
        [exact Hinv | exact Hw | exact Hi | unfold bufio.scanFuel; lia |].
      rewrite H1. cbn [map app]. rewrite (finalEntries_Err s' (bufio.final s) H2).
      reflexivity.
    + destruct (Scan_tail (bufio.scanFuel s) s (t :: T')) as [s' [H1 [H2 H3]]];
        [exact Hinv | exact Hwi | exact HT | exact HTl | discriminate
        | unfold bufio.scanFuel; lia |].
      rewrite H1. rewrite Hwi in Hf. cbn [length] in Hf.
      destruct f as [|f]; [lia|]. cbn [logger.logLines].
      destruct (Scan_finish (bufio.scanFuel s') s') as [s'' [H4 H5]];
        [rewrite H2; discriminate | exact H3 | unfold bufio.scanFuel; lia |].
      rewrite H4. cbn [option_map map app].
      rewrite (finalEntries_Err s'' (bufio.final s)); [reflexivity|].
      rewrite H5. exact H2.
  - inversion Hok as [|? ? [Hl Hlen] Hok']; subst.
    rewrite lineBytes_cons, <- app_assoc in Hwi. cbn [app] in Hwi.
    destruct (Scan_line (bufio.scanFuel s) s l (lineBytes lines ++ T)) as [s' [H1 [H2 [H3 H4]]]];
      [exact Hinv | exact Hwi | exact Hl | exact Hlen | unfold bufio.scanFuel; lia |].
    destruct f as [|f]; [lia|]. cbn [logger.logLines]. rewrite H1.
    rewrite (IH f s'); [|exact H2 | exact H3 | exact Hok' | exact HT | exact HTl |].
    + cbn [option_map app map]. rewrite H4. reflexivity.
    + rewrite Hwi in Hf. rewrite H3. rewrite !length_app in Hf |- *.
      cbn [length] in Hf. rewrite !length_app in Hf. lia.
Qed.

Lemma logLines_toolong lines X f s :
  scanInv s -> (bufio.window s ++ bufio.input s = lineBytes lines ++ X)%list ->
  Forall (fun l => ~ In bufio.nl l /\ (length l < bufio.MaxScanTokenSize)%nat) lines ->
  (bufio.MaxScanTokenSize <= length X)%nat ->
  ~ In bufio.nl (firstn bufio.MaxScanTokenSize X) ->
  (length (bufio.window s ++ bufio.input s) + 2 <= f)%nat ->
  logger.logLines f s =
    Some (map debugEntry lines ++
          [(ErrorLevel, Some bufio.ErrTooLong, "error consuming log")])%list.
Proof.
  revert f s. induction lines as [|l lines IH]; intros f s Hinv Hwi Hok HX Hl Hf.
  - cbn [map app]. unfold lineBytes in Hwi. cbn [map concat app] in Hwi.
    destruct f as [|f]; [lia|]. cbn [logger.logLines].
    destruct (Scan_toolong (bufio.scanFuel s) s X) as [s' [H1 H2]];
      [exact Hinv | exact Hwi | exact HX | exact Hl | unfold bufio.scanFuel; lia |].
    rewrite H1. unfold bufio.Err. rewrite H2. reflexivity.
  - inversion Hok as [|? ? [Hl' Hlen] Hok']; subst.
    rewrite lineBytes_cons, <- app_assoc in Hwi. cbn [app] in Hwi.
    destruct (Scan_line (bufio.scanFuel s) s l (lineBytes lines ++ X)) as [s' [H1 [H2 [H3 H4]]]];
      [exact Hinv | exact Hwi | exact Hl' | exact Hlen | unfold bufio.scanFuel; lia |].
    destruct f as [|f]; [lia|]. cbn [logger.logLines]. rewrite H1.
    rewrite (IH f s'); [|exact H2 | exact H3 | exact Hok' | exact HX | exact Hl |].
    + reflexivity.
    + rewrite Hwi in Hf. rewrite H3. rewrite !length_app in Hf |- *.
      cbn [length] in Hf. rewrite !length_app in Hf. lia.
Qed.

Lemma existsb_ascii_false c l :
  existsb (Ascii.eqb c) l = false -> ~ In c l.
Proof.
  intros H Hin. assert (Ht : existsb (Ascii.eqb c) l = true).
  { apply existsb_exists. exists c. split; [exact Hin|apply Ascii.eqb_refl]. }
  congruence.
Qed.

Lemma short_line_check l :
  existsb (Ascii.eqb bufio.nl) l = false ->
  (length l <? bufio.MaxScanTokenSize)%nat = true ->
  ~ In bufio.nl l /\ (length l < bufio.MaxScanTokenSize)%nat.
Proof.
  intros H1 H2. split; [exact (existsb_ascii_false _ _ H1)|apply Nat.ltb_lt; exact H2].
Qed.

Lemma NewScanner_inv r final : scanInv (bufio.NewScanner r final).
Proof.
  split; [unfold bufio.end_; cbn; lia|]. split; [cbn; lia|reflexivity].
Qed.

Lemma first_nl r :
  In bufio.nl r -> exists l1 l2, r = (l1 ++ bufio.nl :: l2)%list /\ ~ In bufio.nl l1.
Proof.
  induction r as [|c r IH]; intros Hin; [destruct Hin|].
  destruct (ascii_dec c bufio.nl) as [->|Hc].
  - exists [], r. split; [reflexivity|intros []].
  - destruct Hin as [Hc'|Hin]; [congruence|].
    destruct (IH Hin) as [l1 [l2 [-> Hl1]]].
    exists (c :: l1), l2. split; [reflexivity|].
    intros [Hc'|Hin']; [congruence|contradiction].
Qed.

Lemma In_firstn_In {A} n (x : A) l : In x (firstn n l) -> In x l.
Proof. intros H. rewrite <- (firstn_skipn n l). apply in_or_app. left. exact H. Qed.

Lemma lines_decompose r :
  exists lines rest,
    r = (lineBytes lines ++ rest)%list /\
    Forall (fun l => ~ In bufio.nl l /\ (length l < bufio.MaxScanTokenSize)%nat) lines /\
    ((~ In bufio.nl rest /\ (length rest < bufio.MaxScanTokenSize)%nat) \/
     ((bufio.MaxScanTokenSize <= length rest)%nat /\
      ~ In bufio.nl (firstn bufio.MaxScanTokenSize rest))).
Proof.
  assert (Hn : forall n r, (length r <= n)%nat -> exists lines rest,
    r = (lineBytes lines ++ rest)%list /\
    Forall (fun l => ~ In bufio.nl l /\ (length l < bufio.MaxScanTokenSize)%nat) lines /\
    ((~ In bufio.nl rest /\ (length rest < bufio.MaxScanTokenSize)%nat) \/
     ((bufio.MaxScanTokenSize <= length rest)%nat /\
      ~ In bufio.nl (firstn bufio.MaxScanTokenSize rest)))).
  { induction n as [|n IH]; intros r0 Hlen.
    - destruct r0 as [|c r0]; [|cbn in Hlen; lia].
      exists [], []. split; [reflexivity|]. split; [constructor|].
      left. split; [intros []|]. cbn [length]. apply MaxScanTokenSize_pos.
    - destruct (in_dec ascii_dec bufio.nl r0) as [Hin|Hnin].
      + destruct (first_nl r0 Hin) as [l1 [l2 [Hr Hl1]]].
        destruct (Nat.ltb_spec (length l1) bufio.MaxScanTokenSize) as [Hs|Hs].
        * destruct (IH l2) as [lines [rest [Hl2 [Hok Hrest]]]].
          { rewrite Hr, length_app in Hlen. cbn [length] in Hlen. lia. }
          exists (l1 :: lines), rest. split.
          { rewrite lineBytes_cons, <- app_assoc, Hr, Hl2. reflexivity. }
          split; [constructor; [split; assumption|exact Hok]|exact Hrest].
        * exists [], r0. split; [reflexivity|]. split; [constructor|]. right.
          split; [rewrite Hr, length_app; lia|].
          rewrite Hr, firstn_app.
          replace (bufio.MaxScanTokenSize - length l1)%nat with 0%nat by lia.
          rewrite firstn_O, app_nil_r. intros H. apply Hl1. exact (In_firstn_In _ _ _ H).
      + exists [], r0. split; [reflexivity|]. split; [constructor|].
        destruct (Nat.ltb_spec (length r0) bufio.MaxScanTokenSize) as [Hs|Hs].
        * left. split; assumption.
        * right. split; [exact Hs|]. intros H. apply Hnin. exact (In_firstn_In _ _ _ H). }
  exact (Hn (length r) r (Nat.le_refl _)).
Qed.
(** Every stream, whatever its bytes, is logged: it splits into lines
    shorter than 64 KiB, each ended by a newline, followed either by a last
    fragment shorter than 64 KiB without newline, or by 64 KiB or more
    without newline among the first [bufio.MaxScanTokenSize] bytes. In the
    first case one debug entry is logged per line (and for the fragment
    when not empty), then one error entry when the stream failed; in the
    second case the lines' debug entries are followed by one
    [bufio.ErrTooLong] error entry. So at most one error entry is logged,
    always the last one, and no logged text holds a newline. *)
Theorem LogStream_any_input r final :
  exists lines rest,
    r = (lineBytes lines ++ rest)%list /\
    Forall (fun l => ~ In bufio.nl l /\ (length l < bufio.MaxScanTokenSize)%nat) lines /\
    ((~ In bufio.nl rest /\ (length rest < bufio.MaxScanTokenSize)%nat /\
      logger.LogStream r final =
        Some (map debugEntry (lines ++ match rest with [] => [] | _ => [rest] end) ++
              finalEntries final)%list) \/
     ((bufio.MaxScanTokenSize <= length rest)%nat /\
      ~ In bufio.nl (firstn bufio.MaxScanTokenSize rest) /\
      logger.LogStream r final =
        Some (map debugEntry lines ++
              [(ErrorLevel, Some bufio.ErrTooLong, "error consuming log")])%list)).
Proof.
  destruct (lines_decompose r) as [lines [rest [Hr [Hok [[HT HTl]|[HX Hl]]]]]];
    exists lines, rest; (split; [exact Hr|]); (split; [exact Hok|]).
  - left. split; [exact HT|]. split; [exact HTl|]. unfold logger.LogStream.
    apply (logLines_lines lines rest _ _ (NewScanner_inv _ final));
      [exact Hr | exact Hok | exact HT | exact HTl | cbn; lia].
  - right. split; [exact HX|]. split; [exact Hl|]. unfold logger.LogStream.
    apply (logLines_toolong lines rest _ _ (NewScanner_inv _ final));
      [exact Hr | exact Hok | exact HX | exact Hl | cbn; lia].
Qed.

(** [LogStream] over a stream of lines, each shorter than
    [bufio.MaxScanTokenSize] (64 KiB) and ended by a newline, followed by a
    last fragment without newline (possibly empty), logs one debug entry
    per line in order with its text less the newline and a carriage return
    before it, then the fragment the same way when it is not empty; when
    the stream failed rather than ending with [io.EOF], one error entry
    "error consuming log" with the stream's error follows. *)
Theorem LogStream_lines lines tail final :
  Forall (fun l => ~ In bufio.nl l /\ (length l < bufio.MaxScanTokenSize)%nat) lines ->
  ~ In bufio.nl tail -> (length tail < bufio.MaxScanTokenSize)%nat ->
  logger.LogStream (lineBytes lines ++ tail)%list final =
    Some (map debugEntry (lines ++ match tail with [] => [] | _ => [tail] end) ++
          finalEntries final)%list.
Proof.
  intros Hok HT HTl. unfold logger.LogStream.
  apply (logLines_lines lines tail _ _ (NewScanner_inv _ final));
    [reflexivity | exact Hok | exact HT | exact HTl | cbn; lia].
Qed.

(** A line of 64 KiB or more (no newline among the first
    [bufio.MaxScanTokenSize] bytes after the lines before it) stops
    [LogStream]: the lines before it are logged as debug entries, then one
    error entry "error consuming log" with [bufio.ErrTooLong]; nothing of
    the long line or after it is logged, whether the stream then ends or
    fails. *)
Theorem LogStream_too_long lines rest final :
  Forall (fun l => ~ In bufio.nl l /\ (length l < bufio.MaxScanTokenSize)%nat) lines ->
  (bufio.MaxScanTokenSize <= length rest)%nat ->
  ~ In bufio.nl (firstn bufio.MaxScanTokenSize rest) ->
  logger.LogStream (lineBytes lines ++ rest)%list final =
    Some (map debugEntry lines ++
          [(ErrorLevel, Some bufio.ErrTooLong, "error consuming log")])%list.
Proof.
  intros Hok HX Hl. unfold logger.LogStream.
  apply (logLines_toolong lines rest _ _ (NewScanner_inv _ final));
    [reflexivity | exact Hok | exact HX | exact Hl | cbn; lia].
Qed.

(** ** Witnesses *)

Lemma RunShard_wait_combined_error_witness :
  In (EvContainerWait "c1")
     (trace (snd (RunShard Samples.sampleShardID
                   (Samples.sampleEnv None (Samples.exited 137))
                   Samples.sampleExecutor
                   (Samples.sampleShard [Samples.outputSpec]) "/results" []))) /\
  fst (RunShard Samples.sampleShardID
         (Samples.sampleEnv None (Samples.exited 137)) Samples.sampleExecutor
         (Samples.sampleShard [Samples.outputSpec]) "/results" []) =
    Ran (WriteJobResults "/results" "hi" "" 137 None).
Proof.
  assert (Hin : In (EvContainerWait "c1")
     (trace (snd (RunShard Samples.sampleShardID
                   (Samples.sampleEnv None (Samples.exited 137))
                   Samples.sampleExecutor
                   (Samples.sampleShard [Samples.outputSpec]) "/results" [])))).
  { vm_compute. repeat (first [left; reflexivity | right]). }
  split; [exact Hin|].
  pose proof (RunShard_wait_combined_error _ _ _ _ _ _ _ _ _ _ Hin eq_refl) as H.
  cbv zeta in H. destruct H as [H _]. rewrite H. vm_compute. reflexivity.
Defined.

Lemma output_validation_aborts_witness :
  (model.Name Samples.badOutput = "" \/ model.Path Samples.badOutput = "") /\
  outputMounts (Samples.sampleEnv None (Samples.exited 0)) "/results" []
    [Samples.outputSpec; Samples.badOutput; Samples.outputSpec]
    {| fs := []; trace := [] |} =
    (Err (outputValidationError Samples.badOutput),
     {| fs := ["/results/outputs"];
        trace := [EvMkdir "/results/outputs" outputDirPerm] |}) /\
  fst (RunShard Samples.sampleShardID (Samples.sampleEnv None (Samples.exited 0))
         Samples.sampleExecutor (Samples.sampleShard [Samples.badOutput])
         "/results" []) =
    Failed (outputValidationError Samples.badOutput).
Proof.
  assert (Hinv : model.Name Samples.badOutput = "" \/
                 model.Path Samples.badOutput = "") by (right; reflexivity).
  destruct (output_validation_aborts Samples.sampleShardID
              (Samples.sampleEnv None (Samples.exited 0)) Samples.sampleExecutor
              (Samples.sampleShard [Samples.badOutput]) "/results" [] []
              [Samples.outputSpec] Samples.badOutput [Samples.outputSpec]
              {| fs := []; trace := [] |} Hinv) as [H1 H2].
  split; [exact Hinv|]. split.
  - cbn [app] in H1. rewrite H1. vm_compute. reflexivity.
  - destruct (H2 eq_refl) as (_ & _ & _ & H). eapply H; reflexivity.
Defined.


Lemma inputMounts_bind_only_witness :
  fst (RunShard Samples.sampleShardID Samples.otherEnv Samples.sampleExecutor
         (Samples.sampleShard [Samples.outputSpec]) "/results" []) =
    Failed (ENew "unknown storage volume type: copy") /\
  inputMounts [] [(Samples.inputSpec, Samples.bindVolume Samples.inputSpec)] =
    Ok [inMount (Samples.inputSpec, Samples.bindVolume Samples.inputSpec)].
Proof.
  destruct inputMounts_bind_only as (H1 & _ & H3). split.
  - refine (proj1 (H3 Samples.sampleShardID Samples.otherEnv Samples.sampleExecutor
                      (Samples.sampleShard [Samples.outputSpec]) "/results" [] [] [] Samples.inputSpec Samples.otherVolume []
                      eq_refl eq_refl eq_refl eq_refl)).
  - apply (H1 [] [(Samples.inputSpec, Samples.bindVolume Samples.inputSpec)]
              eq_refl).
Defined.

Lemma RunShard_start_failure_witness :
  In (EvContainerStart "c1")
     (trace (snd (RunShard Samples.sampleShardID
                   (Samples.sampleEnv Samples.notFound (Samples.exited 0))
                   Samples.sampleExecutor
                   (Samples.sampleShard [Samples.outputSpec]) "/results" []))) /\
  fst (RunShard Samples.sampleShardID
         (Samples.sampleEnv Samples.notFound (Samples.exited 0))
         Samples.sampleExecutor (Samples.sampleShard [Samples.outputSpec])
         "/results" []) =
    Failed (EWrap "Executable file not found"
              (ENew "exec: echo: executable file not found in $PATH")).
Proof.
  assert (Hin : In (EvContainerStart "c1")
     (trace (snd (RunShard Samples.sampleShardID
                   (Samples.sampleEnv Samples.notFound (Samples.exited 0))
                   Samples.sampleExecutor
                   (Samples.sampleShard [Samples.outputSpec]) "/results" [])))).
  { vm_compute. repeat (first [left; reflexivity | right]). }
  split; [exact Hin|].
  destruct (RunShard_start_failure _ _ _ _ _ _ _
              (ENew "exec: echo: executable file not found in $PATH")
              Hin eq_refl) as (_ & H & _).
  apply H. vm_compute. reflexivity.
Defined.

Lemma buildMounts_order_witness :
  buildMounts (Samples.sampleEnv None (Samples.exited 0)) "/results"
    [(Samples.inputSpec, Samples.bindVolume Samples.inputSpec);
     (Samples.inputSpec, Samples.bindVolume Samples.inputSpec)]
    [Samples.outputSpec] {| fs := []; trace := [] |} =
    (Ok [inMount (Samples.inputSpec, Samples.bindVolume Samples.inputSpec);
         inMount (Samples.inputSpec, Samples.bindVolume Samples.inputSpec);
         outMount "/results/outputs" Samples.outputSpec],
     {| fs := ["/results/outputs"];
        trace := [EvMkdir "/results/outputs" outputDirPerm] |}) /\
  map mount.Target
    [inMount (Samples.inputSpec, Samples.bindVolume Samples.inputSpec);
     inMount (Samples.inputSpec, Samples.bindVolume Samples.inputSpec);
     outMount "/results/outputs" Samples.outputSpec] =
    ["/inputs"; "/inputs"; "/outputs"].
Proof.
  assert (H : buildMounts (Samples.sampleEnv None (Samples.exited 0)) "/results"
    [(Samples.inputSpec, Samples.bindVolume Samples.inputSpec);
     (Samples.inputSpec, Samples.bindVolume Samples.inputSpec)]
    [Samples.outputSpec] {| fs := []; trace := [] |} =
    (Ok [inMount (Samples.inputSpec, Samples.bindVolume Samples.inputSpec);
         inMount (Samples.inputSpec, Samples.bindVolume Samples.inputSpec);
         outMount "/results/outputs" Samples.outputSpec],
     {| fs := ["/results/outputs"];
        trace := [EvMkdir "/results/outputs" outputDirPerm] |}))
    by (vm_compute; reflexivity).
  split; [exact H|].
  destruct (buildMounts_order _ _ _ _ _ _ _ H) as (_ & HT & _).
  rewrite HT. reflexivity.
Defined.

Lemma RunShard_success_steps_witness :
  snd (RunShard Samples.sampleShardID (Samples.sampleEnv None (Samples.exited 0))
         Samples.sampleExecutor (Samples.sampleShard [Samples.outputSpec])
         "/results" []) =
    {| fs := ["/results/outputs"];
       trace := (trace Samples.sampleMountsState ++ [EvPullImage "ubuntu"] ++
                 [EvSetupNetwork;
                  EvContainerCreate
                    (jobContainerConfig Samples.sampleShardID Samples.sampleExecutor
                       (Samples.sampleShard [Samples.outputSpec]) "{}")
                    (hostConfigOf Samples.sampleMounts
                       (ParseResourceUsageConfig (Samples.sampleEnv None (Samples.exited 0))
                          (model.Resources (model.Spec (Samples.sampleJob [Samples.outputSpec])))))
                    (jobContainerName Samples.sampleExecutor
                       (Samples.sampleShard [Samples.outputSpec]));
                  EvContainerStart "c1"; EvFollowLogs "c1"; EvContainerWait "c1"] ++
                 cleanupEvents (Samples.sampleEnv None (Samples.exited 0))
                   Samples.sampleExecutor Samples.sampleShardID
                   (Samples.sampleShard [Samples.outputSpec]))%list |}.
Proof.
  destruct (RunShard_success_steps Samples.sampleShardID
              (Samples.sampleEnv None (Samples.exited 0)) Samples.sampleExecutor
              (Samples.sampleShard [Samples.outputSpec]) "/results" [] []
              [(Samples.inputSpec, Samples.bindVolume Samples.inputSpec)]
              Samples.sampleMounts Samples.sampleMountsState "{}"
              (jobContainerConfig Samples.sampleShardID Samples.sampleExecutor
                 (Samples.sampleShard [Samples.outputSpec]) "{}")
              (hostConfigOf Samples.sampleMounts
                 (ParseResourceUsageConfig (Samples.sampleEnv None (Samples.exited 0))
                    (model.Resources (model.Spec (Samples.sampleJob [Samples.outputSpec])))))
              "c1")
    as [H _];
    [reflexivity | reflexivity | vm_compute; reflexivity | intros _; reflexivity
    | reflexivity | reflexivity | reflexivity | reflexivity |].
  rewrite H. reflexivity.
Defined.

Lemma RunShard_failures_after_mounts_witness :
  RunShard Samples.sampleShardID Samples.pullFailEnv Samples.sampleExecutor
    (Samples.sampleShard [Samples.outputSpec]) "/results" [] =
    (Failed (EWrap (pullImageMsg "ubuntu") (ENew "manifest unknown")),
     {| fs := ["/results/outputs"];
        trace := (trace Samples.sampleMountsState ++ [EvPullImage "ubuntu"] ++
                  cleanupEvents Samples.pullFailEnv Samples.sampleExecutor
                    Samples.sampleShardID (Samples.sampleShard [Samples.outputSpec]))%list |}).
Proof.
  destruct (RunShard_failures_after_mounts Samples.sampleShardID Samples.pullFailEnv
              Samples.sampleExecutor (Samples.sampleShard [Samples.outputSpec])
              "/results" [] []
              [(Samples.inputSpec, Samples.bindVolume Samples.inputSpec)]
              Samples.sampleMounts Samples.sampleMountsState
              eq_refl eq_refl ltac:(vm_compute; reflexivity)) as [H _].
  exact (H (ENew "manifest unknown") eq_refl eq_refl).
Defined.

Lemma outputMounts_success_dirs_witness :
  fs (snd (outputMounts (Samples.sampleEnv None (Samples.exited 0)) "/results" []
             [Samples.outputSpec] {| fs := ["/tmp"]; trace := [] |})) =
    ["/results/outputs"; "/tmp"].
Proof.
  pose proof (outputMounts_success_dirs (Samples.sampleEnv None (Samples.exited 0))
                "/results" [] [Samples.outputSpec] {| fs := ["/tmp"]; trace := [] |}
                [outMount "/results/outputs" Samples.outputSpec]
                {| fs := ["/results/outputs"; "/tmp"];
                   trace := [EvMkdir "/results/outputs" outputDirPerm] |}
                ltac:(vm_compute; reflexivity)) as [H _].
  cbn [fs snd]. vm_compute in H |- *. exact H.
Defined.

Lemma RunShard_duplicate_output_dir_witness :
  fst (RunShard Samples.sampleShardID (Samples.sampleEnv None (Samples.exited 0))
         Samples.sampleExecutor
         (Samples.sampleShard [Samples.outputSpec; Samples.dotOutputSpec])
         "/results" []) =
    Failed (EWrap "mkdir /results/outputs" (ENew "file exists")).
Proof.
  destruct (RunShard_duplicate_output_dir Samples.sampleShardID
              (Samples.sampleEnv None (Samples.exited 0)) Samples.sampleExecutor
              (Samples.sampleShard [Samples.outputSpec; Samples.dotOutputSpec])
              "/results" [] [] Samples.outputSpec [] Samples.dotOutputSpec []
              eq_refl ltac:(vm_compute; reflexivity)) as [_ [_ [H _]]].
  exact (H [] [(Samples.inputSpec, Samples.bindVolume Samples.inputSpec)]
           [inMount (Samples.inputSpec, Samples.bindVolume Samples.inputSpec)]
           ltac:(vm_compute; reflexivity) ltac:(vm_compute; reflexivity)
           ltac:(vm_compute; reflexivity)
           (ex_intro _ _ (ex_intro _ _ eq_refl))
           ltac:(vm_compute; discriminate) ltac:(vm_compute; discriminate)).
Defined.

Lemma marshalCaller_injective_witness :
  logger.TrimPrefix "/repo/pkg/a.go" ("/repo" ++ "/") =
    logger.TrimPrefix "/home/x/pkg/a.go" ("/home/x" ++ "/") /\ 12 = 12.
Proof.
  apply (marshalCaller_injective "/repo" "/home/x" "/repo/pkg/a.go" "/home/x/pkg/a.go"
           12 12); [lia | lia | reflexivity].
Defined.

Lemma LogStream_lines_witness :
  (Forall (fun l => ~ In bufio.nl l /\ (length l < bufio.MaxScanTokenSize)%nat)
     Samples.logLinesSample /\
   ~ In bufio.nl Samples.logTailSample /\
   (length Samples.logTailSample < bufio.MaxScanTokenSize)%nat) /\
  logger.LogStream (lineBytes Samples.logLinesSample ++ Samples.logTailSample)%list
    (Some (ENew "broken pipe")) =
    Some (map debugEntry (Samples.logLinesSample ++
            match Samples.logTailSample with [] => [] | _ => [Samples.logTailSample] end) ++
          finalEntries (Some (ENew "broken pipe")))%list.
Proof.
  assert (Hok : Forall (fun l => ~ In bufio.nl l /\ (length l < bufio.MaxScanTokenSize)%nat)
                  Samples.logLinesSample).
  { unfold Samples.logLinesSample.
    repeat (apply Forall_cons; [apply short_line_check; vm_compute; reflexivity|]).
    apply Forall_nil. }
  assert (HT : ~ In bufio.nl Samples.logTailSample /\
               (length Samples.logTailSample < bufio.MaxScanTokenSize)%nat).
  { apply short_line_check; vm_compute; reflexivity. }
  split; [split; [exact Hok|exact HT]|].
  destruct HT as [HT HTl].
  exact (LogStream_lines Samples.logLinesSample Samples.logTailSample
           (Some (ENew "broken pipe")) Hok HT HTl).
Defined.

Lemma LogStream_too_long_witness :
  (Forall (fun l => ~ In bufio.nl l /\ (length l < bufio.MaxScanTokenSize)%nat)
     Samples.logLinesSample /\
   (bufio.MaxScanTokenSize <= length Samples.longLineSample)%nat /\
   ~ In bufio.nl (firstn bufio.MaxScanTokenSize Samples.longLineSample)) /\
  logger.LogStream (lineBytes Samples.logLinesSample ++ Samples.longLineSample)%list None =
    Some (map debugEntry Samples.logLinesSample ++
          [(ErrorLevel, Some bufio.ErrTooLong, "error consuming log")])%list.
Proof.
  assert (Hok : Forall (fun l => ~ In bufio.nl l /\ (length l < bufio.MaxScanTokenSize)%nat)
                  Samples.logLinesSample).
  { unfold Samples.logLinesSample.
    repeat (apply Forall_cons; [apply short_line_check; vm_compute; reflexivity|]).
    apply Forall_nil. }
  assert (HX : (bufio.MaxScanTokenSize <= length Samples.longLineSample)%nat).
  { apply Nat.leb_le. vm_compute. reflexivity. }
  assert (Hl : ~ In bufio.nl (firstn bufio.MaxScanTokenSize Samples.longLineSample)).
  { apply existsb_ascii_false. vm_compute. reflexivity. }
  split; [split; [exact Hok|split; [exact HX|exact Hl]]|].
  exact (LogStream_too_long Samples.logLinesSample Samples.longLineSample None Hok HX Hl).
Defined.

End Props.
